(** * A shallow embedding of the thread scraper of [app.py]

    The development models [resolve_ref] and [scrape_comments] of
    [src/app.py]: the reference resolver, the filename derivation, the
    cache check, the pagination loop with its redirect and duplicate-page
    stops, the comment extractor with its hash-based deduplication, and the
    final write of the Deal record to the cache directory.  It also
    models the other endpoints of the file: [list_files], [delete_files],
    [delete_all_files] and [chat_with_data], the directory being a map
    from file names to their contents and the Gemini model an oracle.

    Python values decoded from JSON are the inductive [json].  Python's
    [None] and JSON [null] are the same value, so both are [JNull].  A
    Python [dict] decoded from JSON is an insertion-ordered association
    list with unique keys.  JSON floats are modelled as rationals (the
    non-standard [NaN] and [Infinity] literals are not represented).
    Strings are Rocq strings of 8-bit characters. *)

From Stdlib Require Import String Ascii List ZArith QArith Bool Lia.
From Stdlib Require Import Sorted Permutation.
Import ListNotations.
Open Scope Z_scope.
Set Warnings "-register-all".
Set Warnings "-abstract-large-number".

(** ** JSON values, as returned by [json.loads] *)

Inductive json : Type :=
| JNull
| JBool (b : bool)
| JInt (z : Z)
| JFloat (q : Q)
| JStr (s : string)
| JList (l : list json)
| JObj (fields : list (string * json)).

(** ** Python dictionary operations on decoded JSON objects *)

Fixpoint dict_get (d : list (string * json)) (k : string) : option json :=
  match d with
  | [] => None
  | (k', v) :: r => if String.eqb k k' then Some v else dict_get r k
  end.

(** [k in d] *)
Definition dict_has (d : list (string * json)) (k : string) : bool :=
  match dict_get d k with Some _ => true | None => false end.

(** [d.get(k)]: [None] when the key is missing *)
Definition dict_get_none (d : list (string * json)) (k : string) : json :=
  match dict_get d k with Some v => v | None => JNull end.

(** [d.get(k, default)] *)
Definition dict_get_default (d : list (string * json)) (k : string) (dflt : json)
  : json :=
  match dict_get d k with Some v => v | None => dflt end.

(** [d[k] = v]: an existing key keeps its position, a new key goes last *)
Fixpoint dict_set (d : list (string * json)) (k : string) (v : json)
  : list (string * json) :=
  match d with
  | [] => [(k, v)]
  | (k', v') :: r =>
      if String.eqb k k' then (k', v) :: r else (k', v') :: dict_set r k v
  end.

(** Python truthiness of a JSON value, used by [x or ""] *)
Definition py_truthy (v : json) : bool :=
  match v with
  | JNull => false
  | JBool b => b
  | JInt z => negb (Z.eqb z 0)
  | JFloat q => negb (Qeq_bool q 0)
  | JStr s => negb (String.eqb s EmptyString)
  | JList l => match l with [] => false | _ => true end
  | JObj f => match f with [] => false | _ => true end
  end.

(** [v or w] *)
Definition py_or (v w : json) : json := if py_truthy v then v else w.

(** [isinstance(v, int)] holds for Python ints and for booleans, since
    [bool] is a subclass of [int] ([True == 1], [False == 0]). *)
Definition py_as_int (v : json) : option Z :=
  match v with
  | JInt z => Some z
  | JBool b => Some (Z.b2z b)
  | _ => None
  end.

(** The numeric value of [v] for an ordered comparison with an int;
    [None] when Python raises [TypeError] (str, None, list, dict). *)
Definition py_num (v : json) : option Q :=
  match v with
  | JInt z => Some (inject_Z z)
  | JBool b => Some (inject_Z (Z.b2z b))
  | JFloat q => Some q
  | _ => None
  end.

(** [m > v] for a Python int [m]; [None] is a raised [TypeError]. *)
Definition py_int_gt (m : Z) (v : json) : option bool :=
  match py_num v with
  | Some q => Some (negb (Qle_bool (inject_Z m) q))
  | None => None
  end.

(** [v != -1] *)
Definition py_ne_minus_one (v : json) : bool :=
  match py_num v with
  | Some q => negb (Qeq_bool q (inject_Z (-1)))
  | None => true
  end.

(** ** [resolve_ref] (app.py, lines 239-242)

<<
def resolve_ref(data, index):
    if isinstance(index, int) and 0 <= index < len(data):
        return data[index]
    return None
>> *)

Definition resolve_ref (data : list json) (index : json) : json :=
  match py_as_int index with
  | Some i =>
      if (0 <=? i) && (i <? Z.of_nat (length data))
      then nth (Z.to_nat i) data JNull
      else JNull
  | None => JNull
  end.

(** ** String helpers: [str.split], slicing and the regular expressions of
    the filename derivation *)

Local Open Scope string_scope.

(** [s.split(sep)[0]]: the text before the first [sep] *)
Fixpoint before_char (sep : ascii) (s : string) : string :=
  match s with
  | EmptyString => EmptyString
  | String c r => if Ascii.eqb c sep then EmptyString else String c (before_char sep r)
  end.

(** [sep in s] *)
Fixpoint has_char (sep : ascii) (s : string) : bool :=
  match s with
  | EmptyString => false
  | String c r => Ascii.eqb c sep || has_char sep r
  end.

(** [s.split(sep)] *)
Fixpoint py_split (sep : ascii) (s : string) : list string :=
  match s with
  | EmptyString => [EmptyString]
  | String c r =>
      if Ascii.eqb c sep then EmptyString :: py_split sep r
      else match py_split sep r with
           | [] => [String c EmptyString]
           | w :: ws => String c w :: ws
           end
  end.

(** [xs[-k]] for [k >= 1]; [None] is [IndexError] *)
Definition index_from_end {A} (k : nat) (xs : list A) : option A :=
  if Nat.leb k (length xs) then nth_error xs (length xs - k) else None.

(** [\d] on 8-bit characters *)
Definition is_digit (c : ascii) : bool :=
  let n := nat_of_ascii c in Nat.leb 48 n && Nat.leb n 57.

(** The character class [[a-zA-Z0-9\-]] *)
Definition is_slug_char (c : ascii) : bool :=
  let n := nat_of_ascii c in
  is_digit c || (Nat.leb 65 n && Nat.leb n 90) || (Nat.leb 97 n && Nat.leb n 122)
  || Nat.eqb n 45.

(** The greedy [\d+] after a match position: the leading digit run *)
Fixpoint digit_run (s : string) : string :=
  match s with
  | String c r => if is_digit c then String c (digit_run r) else EmptyString
  | EmptyString => EmptyString
  end.

(** A match of [/f/(\d+)] starting at the first character of [s]: the
    greedy digit run after [/f/]. *)
Definition deal_id_at (s : string) : option string :=
  match s with
  | String c1 (String c2 (String c3 (String d r))) =>
      if Ascii.eqb c1 "/" && Ascii.eqb c2 "f" && Ascii.eqb c3 "/" && is_digit d
      then Some (String d (digit_run r))
      else None
  | _ => None
  end.

(** [re.search(r'/f/(\d+)', s).group(1)]: the match at the leftmost
    position where there is one. *)
Fixpoint find_deal_id (s : string) : option string :=
  match s with
  | EmptyString => None
  | String _ r =>
      match deal_id_at s with
      | Some id => Some id
      | None => find_deal_id r
      end
  end.

(** [re.sub(r'[^a-zA-Z0-9\-]', '', s)] *)
Fixpoint sanitize_slug (s : string) : string :=
  match s with
  | EmptyString => EmptyString
  | String c r => if is_slug_char c then String c (sanitize_slug r) else sanitize_slug r
  end.

(** [s[:n]] *)
Definition str_prefix (n : nat) (s : string) : string := substring 0 n s.

(** ** Filename derivation (app.py, lines 255-269)

<<
    if "?" in base_url:
        base_url = base_url.split("?")[0]
    deal_id_match = re.search(r'/f/(\d+)', base_url)
    if deal_id_match:
        filename = f"deal_{deal_id_match.group(1)}.json"
    else:
        slug = base_url.split('/')[-1] if base_url.split('/')[-1] else base_url.split('/')[-2]
        safe_slug = re.sub(r'[^a-zA-Z0-9\-]', '', slug)
        filename = f"scrape_{safe_slug[:50]}.json"
>> *)

Definition strip_query (url : string) : string :=
  if has_char "?" url then before_char "?" url else url.

(** The fallback slug; [None] is the [IndexError] of [split('/')[-2]]
    on a one-piece split whose piece is empty. *)
Definition url_slug (base_url : string) : option string :=
  let pieces := py_split "/" base_url in
  match index_from_end 1 pieces with
  | Some last =>
      if negb (String.eqb last EmptyString) then Some last
      else index_from_end 2 pieces
  | None => None
  end.

Definition derive_filename (base_url : string) : option string :=
  match find_deal_id base_url with
  | Some id => Some ("deal_" ++ id ++ ".json")
  | None =>
      match url_slug base_url with
      | Some slug => Some ("scrape_" ++ str_prefix 50 (sanitize_slug slug) ++ ".json")
      | None => None
      end
  end.

Local Close Scope string_scope.

Example derive_filename_deal :
  derive_filename "https://example.com/f/654321-some-deal"%string
  = Some "deal_654321.json"%string.
Proof. reflexivity. Qed.

Example derive_filename_slug :
  derive_filename "https://example.com/forum/some_thread!!"%string
  = Some "scrape_somethread.json"%string.
Proof. reflexivity. Qed.

(** ** Decimal rendering of a page number, for [f"...&page={page}"] *)

Fixpoint digits_rev (fuel : nat) (n : Z) : string :=
  match fuel with
  | O => EmptyString
  | S f =>
      let d := ascii_of_nat (48 + Z.to_nat (n mod 10)) in
      if n <? 10 then String d EmptyString
      else String d (digits_rev f (n / 10))
  end.

Fixpoint rev_string (s : string) (acc : string) : string :=
  match s with
  | EmptyString => acc
  | String c r => rev_string r (String c acc)
  end.

(** [str(n)] for [n >= 0] *)
Definition z_to_dec (n : Z) : string :=
  rev_string (digits_rev (S (Z.to_nat (Z.log2_up (n + 1)))) n) EmptyString.

Example z_to_dec_12 : z_to_dec 12 = "12"%string.
Proof. reflexivity. Qed.

(** ** Normalised comments and the Deal record *)

Record comment : Type := mk_comment {
  c_type : string;
  c_author : json;
  c_text : json;
  c_date : json
}.

(** The identity triple [(author, date, text)] *)
Definition comment_triple (c : comment) : json * json * json :=
  (c_author c, c_date c, c_text c).

Definition comment_to_json (c : comment) : json :=
  JObj [("type"%string, JStr (c_type c)); ("author"%string, c_author c);
        ("text"%string, c_text c); ("date"%string, c_date c)].

(** The [result] dict of lines 470-478 *)
Definition deal_record (title desc : string) (cs : list comment)
  (filename : string) (max_pages : Z) : json :=
  JObj [("deal_title"%string, JStr title);
        ("deal_description"%string, JStr desc);
        ("count"%string, JInt (Z.of_nat (length cs)));
        ("comments"%string, JList (map comment_to_json cs));
        ("saved_to"%string, JStr filename);
        ("source"%string, JStr "scrape");
        ("max_pages_request"%string, JInt max_pages)].

(** ** External world *)

(** The outcome of [requests.get(url)] followed by
    [response.raise_for_status()]: an exception, or the final URL after
    redirects and the body text. *)
Inductive fetch_result : Type :=
| FetchFail
| FetchOk (final_url : string) (html : string).

(** A file of the [scraped_data] directory: JSON that [json.load]
    decodes, or a file whose read or decoding raises. *)
Inductive cache_file : Type :=
| CacheJson (j : json)
| CacheUnreadable.

(** The cache directory, by filename; [None] when the file does not exist. *)
Definition cache_fs : Type := string -> option cache_file.

Definition fs_write (fs : cache_fs) (name : string) (f : cache_file) : cache_fs :=
  fun n => if String.eqb n name then Some f else fs n.

(** The scrape request of [ScrapeRequest] *)
Record scrape_request : Type := mk_request {
  req_url : string;
  req_max_pages : Z;
  req_force_refresh : bool
}.

(** The result of one call of [scrape_comments]: the returned dict, or
    [None] when an exception escapes; the cache directory afterwards;
    and the URLs passed to [requests.get], in order. *)
Record outcome : Type := mk_outcome {
  response : option json;
  files : cache_fs;
  requests : list string
}.

(** ** Iteration over a decoded payload

    [for item in data]: a list yields its elements, a dict its keys and a
    string its characters; any other value raises [TypeError] ([None]). *)

Fixpoint string_chars (s : string) : list json :=
  match s with
  | EmptyString => []
  | String c r => JStr (String c EmptyString) :: string_chars r
  end.

Definition py_iter (data : json) : option (list json) :=
  match data with
  | JList l => Some l
  | JObj f => Some (map (fun kv => JStr (fst kv)) f)
  | JStr s => Some (string_chars s)
  | _ => None
  end.

(** The array that [resolve_ref(data, ...)] indexes.  [resolve_ref] is
    only reached through a dict element of [data], and only a list payload
    has dict elements (a dict yields its keys, a string its characters),
    so the other payloads never index anything. *)
Definition data_list (data : json) : list json :=
  match data with JList l => l | _ => [] end.

Section Scraper.

(** Library functions of Python and of the imported modules that the
    scraper calls; every result below holds for all of them. *)

(** [str(v)] of a value placed in an f-string *)
Variable py_str : json -> string.
(** The built-in [hash] on strings (fixed within one process) *)
Variable py_hash : string -> Z.
(** [re.search(<__NUXT_DATA__ script pattern>, html)]: group 1, or [None] *)
Variable find_nuxt_data : string -> option string.
(** [json.loads]; [None] is a raised [json.JSONDecodeError] *)
Variable json_loads : string -> option json.
(** [re.sub(r'\s+', ' ', re.sub(r'<[^>]+>', ' ', s)).strip()] *)
Variable strip_html : string -> string.
(** [parse_qs(urlparse(u).query).get('page')] *)
Variable url_page_param : string -> option (list string).
(** [int(s)]; [None] is a raised [ValueError] *)
Variable py_int : string -> option Z.

(** *** Comment extractor (lines 379-462) *)

(** [hash(f"{author}|{date}|{text}")] *)
Definition comment_key (c : comment) : Z :=
  py_hash (py_str (c_author c) ++ "|" ++ py_str (c_date c) ++ "|" ++ py_str (c_text c))%string.

(** The text of either shape: one extra hop through [htmlContent] *)
Definition resolve_text (data : list json) (text_idx : json) : json :=
  let raw_text_obj := resolve_ref data text_idx in
  match raw_text_obj with
  | JObj g =>
      if dict_has g "htmlContent" then
        py_or (resolve_ref data (dict_get_none g "htmlContent")) (JStr "")
      else py_or raw_text_obj (JStr "")
  | _ => py_or raw_text_obj (JStr "")
  end.

(** Type A, lines 385-403 *)
Definition featured_comment (data : list json) (item : list (string * json))
  : option comment :=
  if dict_has item "commentText" && dict_has item "author" then
    let author := py_or (resolve_ref data (dict_get_none item "author")) (JStr "") in
    let text := resolve_text data (dict_get_none item "commentText") in
    let date :=
      if dict_has item "timestampFormatted"
      then py_or (resolve_ref data (dict_get_none item "timestampFormatted")) (JStr "")
      else JStr "" in
    Some (mk_comment "Featured" author text date)
  else None.

(** Type B, lines 420-449 *)
Definition main_comment (data : list json) (item : list (string * json))
  : option comment :=
  if dict_has item "commentContent" && dict_has item "commentAuthor" then
    let author :=
      match resolve_ref data (dict_get_none item "commentAuthor") with
      | JObj a =>
          if dict_has a "username"
          then py_or (resolve_ref data (dict_get_none a "username")) (JStr "")
          else JStr ""
      | _ => JStr ""
      end in
    let text := resolve_text data (dict_get_none item "commentContent") in
    let date :=
      if dict_has item "commentSectionCommentFooter" then
        match resolve_ref data (dict_get_none item "commentSectionCommentFooter") with
        | JObj footer =>
            if dict_has footer "timestampFormatted"
            then py_or (resolve_ref data (dict_get_none footer "timestampFormatted")) (JStr "")
            else JStr ""
        | _ => JStr ""
        end
      else JStr "" in
    Some (mk_comment "Main" author text date)
  else None.

Definition option_to_list {A} (o : option A) : list A :=
  match o with Some a => [a] | None => [] end.

(** The comments an element yields, Featured first, then Main; both
    shapes are tried on every dict. *)
Definition item_comments (data : list json) (item : json) : list comment :=
  match item with
  | JObj f => option_to_list (featured_comment data f) ++ option_to_list (main_comment data f)
  | _ => []
  end.

(** The dedup step of lines 405-416 and 451-462 on the running
    [(seen_comments_hashes, new_comments_on_this_page, page_comments)]. *)
Definition add_comment (acc : list Z * nat * list comment) (c : comment)
  : list Z * nat * list comment :=
  let '(seen, new, page_comments) := acc in
  let k := comment_key c in
  if existsb (Z.eqb k) seen then acc
  else (k :: seen, S new, page_comments ++ [c]).

(** The whole [for item in data] loop of one page *)
Definition extract_page (data : list json) (items : list json) (seen : list Z)
  : list Z * nat * list comment :=
  fold_left add_comment (flat_map (item_comments data) items) (seen, O, []).

(** *** Deal metadata extractor (lines 347-377) *)

(** The first dict with [mainDesktopBlock], its value; [-1] otherwise *)
Fixpoint find_main_block (items : list json) : json :=
  match items with
  | [] => JInt (-1)
  | JObj f :: r =>
      if dict_has f "mainDesktopBlock" then dict_get_none f "mainDesktopBlock"
      else find_main_block r
  | _ :: r => find_main_block r
  end.

(** The [(deal_title, deal_description)] after the page-1 block; a
    non-iterable payload raises [TypeError] inside the [try], which is
    swallowed. *)
Definition extract_meta (data : json) (title desc : string) : string * string :=
  match py_iter data with
  | None => (title, desc)
  | Some items =>
      let main_block_idx := find_main_block items in
      if py_ne_minus_one main_block_idx then
        match resolve_ref (data_list data) main_block_idx with
        | JObj mb =>
            let title' :=
              if dict_has mb "dealTitle" then
                match resolve_ref (data_list data) (dict_get_none mb "dealTitle") with
                | JStr s => s
                | _ => title
                end
              else title in
            let desc' :=
              if dict_has mb "bodyHtml" then
                match resolve_ref (data_list data) (dict_get_none mb "bodyHtml") with
                | JStr s => strip_html s
                | _ => desc
                end
              else desc in
            (title', desc')
        | _ => (title, desc)
        end
      else (title, desc)
  end.

(** *** Pagination controller (lines 294-468) *)

(** The loop variables [seen_comments_hashes], [deal_title],
    [deal_description] and [all_comments], with the URLs fetched so far. *)
Record scrape_state : Type := mk_state {
  st_seen : list Z;
  st_title : string;
  st_desc : string;
  st_comments : list comment;
  st_requests : list string
}.

Definition init_state : scrape_state := mk_state [] "" "" [] [].

Inductive page_step : Type :=
| Continue (st : scrape_state)
| Stop (st : scrape_state)
| Raise (st : scrape_state).

Definition page_url (base_url : string) (page : Z) : string :=
  (base_url ++ "?sort=oldest&page=" ++ z_to_dec page)%string.

(** Lines 311-325; an [int()] failure raises inside the [try] and
    ends in the same [break]. *)
Definition redirect_stop (page : Z) (final_url : string) : bool :=
  if 1 <? page then
    match url_page_param final_url with
    | Some (v :: _) =>
        match py_int v with
        | Some final_page => negb (final_page =? page)
        | None => true
        end
    | _ => true
    end
  else false.

Definition log_request (st : scrape_state) (url : string) : scrape_state :=
  mk_state (st_seen st) (st_title st) (st_desc st) (st_comments st)
    (st_requests st ++ [url]).

(** One iteration of [for page in range(1, max_pages + 1)] *)
Definition scrape_page (fetch : string -> fetch_result) (base_url : string)
  (page : Z) (st0 : scrape_state) : page_step :=
  let url := page_url base_url page in
  let st := log_request st0 url in
  match fetch url with
  | FetchFail => Stop st
  | FetchOk final_url html =>
      if redirect_stop page final_url then Stop st else
      match find_nuxt_data html with
      | None => Stop st
      | Some payload =>
          match json_loads payload with
          | None => Stop st
          | Some data =>
              let '(title, desc) :=
                if page =? 1 then extract_meta data (st_title st) (st_desc st)
                else (st_title st, st_desc st) in
              match py_iter data with
              | None => Raise st
              | Some items =>
                  let '(seen, new, page_comments) :=
                    extract_page (data_list data) items (st_seen st) in
                  if Nat.eqb new 0 then
                    Stop (mk_state seen title desc (st_comments st) (st_requests st))
                  else
                    Continue (mk_state seen title desc
                                (st_comments st ++ page_comments) (st_requests st))
              end
          end
      end
  end.

Inductive loop_result : Type :=
| LoopDone (st : scrape_state)
| LoopRaise (st : scrape_state).

Fixpoint page_loop (fetch : string -> fetch_result) (base_url : string)
  (fuel : nat) (page : Z) (st : scrape_state) : loop_result :=
  match fuel with
  | O => LoopDone st
  | S n =>
      match scrape_page fetch base_url page st with
      | Continue st' => page_loop fetch base_url n (page + 1) st'
      | Stop st' => LoopDone st'
      | Raise st' => LoopRaise st'
      end
  end.

(** Lines 294-483: the pages, then the record, written to the cache *)
Definition fresh_scrape (fetch : string -> fetch_result) (base_url filename : string)
  (max_pages : Z) (fs : cache_fs) : outcome :=
  match page_loop fetch base_url (Z.to_nat max_pages) 1 init_state with
  | LoopDone st =>
      let result := deal_record (st_title st) (st_desc st) (st_comments st)
                      filename max_pages in
      mk_outcome (Some result) (fs_write fs filename (CacheJson result)) (st_requests st)
  | LoopRaise st => mk_outcome None fs (st_requests st)
  end.

(** *** Cache check (lines 276-292)

    A missing file, an unreadable one, a payload that is not a dict
    ([.get] raises), and a [max_pages_request] that does not compare with
    an int are all misses. *)
Definition cache_lookup (fs : cache_fs) (filename : string) (max_pages : Z)
  (force_refresh : bool) : option json :=
  if force_refresh then None else
  match fs filename with
  | Some (CacheJson (JObj cached_data)) =>
      match py_int_gt max_pages
              (dict_get_default cached_data "max_pages_request" (JInt 0)) with
      | Some false => Some (JObj (dict_set cached_data "source" (JStr "cache")))
      | _ => None
      end
  | _ => None
  end.

(** [scrape_comments] *)
Definition scrape_comments (fetch : string -> fetch_result) (req : scrape_request)
  (fs : cache_fs) : outcome :=
  let base_url := strip_query (req_url req) in
  match derive_filename base_url with
  | None => mk_outcome None fs []
  | Some filename =>
      match cache_lookup fs filename (req_max_pages req) (req_force_refresh req) with
      | Some cached => mk_outcome (Some cached) fs []
      | None => fresh_scrape fetch base_url filename (req_max_pages req) fs
      end
  end.

End Scraper.

(** ** String operations of the file and chat endpoints *)

Local Open Scope string_scope.

(** [needle in s] on strings *)
Fixpoint str_contains (needle s : string) : bool :=
  if String.prefix needle s then true
  else match s with
       | EmptyString => false
       | String _ r => str_contains needle r
       end.

(** [s.endswith(suffix)] *)
Definition ends_with (suffix s : string) : bool :=
  Nat.leb (String.length suffix) (String.length s)
  && String.eqb (substring (String.length s - String.length suffix) (String.length suffix) s) suffix.

(** Python's [a < b] on strings: lexicographic on character codes *)
Definition str_lt (a b : string) : bool :=
  match String.compare a b with Lt => true | _ => false end.

Definition nl : string := String (ascii_of_nat 10) EmptyString.

(** [sep.join(xs)] *)
Fixpoint py_join (sep : string) (xs : list string) : string :=
  match xs with
  | [] => EmptyString
  | [x] => x
  | x :: r => x ++ sep ++ py_join sep r
  end.

(** [if len(s) > n: s = s[:n] + marker] *)
Definition truncate_with (n : nat) (marker s : string) : string :=
  if Nat.ltb n (String.length s) then substring 0 n s ++ marker else s.

(** A list comprehension whose element expression may raise *)
Fixpoint map_option {A B} (f : A -> option B) (l : list A) : option (list B) :=
  match l with
  | [] => Some []
  | x :: r =>
      match f x, map_option f r with
      | Some y, Some ys => Some (y :: ys)
      | _, _ => None
      end
  end.

Definition fs_remove (fs : cache_fs) (name : string) : cache_fs :=
  fun n => if String.eqb n name then None else fs n.

(** ** [delete_files] (app.py, lines 83-105)

    [fs f] tells whether [os.path.join(output_dir, f)] exists;
    [os_remove f] is [os.remove] on that existing entry: [None] when it
    succeeds, [Some (str(e))] when it raises (a directory, permissions). *)

Definition backslash : ascii := ascii_of_nat 92.

(** The traversal check of line 91 *)
Definition invalid_filename (filename : string) : bool :=
  str_contains ".." filename || has_char "/" filename || has_char backslash filename.

Record delete_outcome : Type := mk_delete {
  del_files : cache_fs;
  del_deleted : list string;
  del_errors : list string
}.

Fixpoint delete_loop (os_remove : string -> option string) (filenames : list string)
  (fs : cache_fs) (deleted errors : list string) : delete_outcome :=
  match filenames with
  | [] => mk_delete fs deleted errors
  | filename :: rest =>
      if invalid_filename filename then
        delete_loop os_remove rest fs deleted (errors ++ ["Invalid filename: " ++ filename])
      else
        match fs filename with
        | Some _ =>
            match os_remove filename with
            | None =>
                delete_loop os_remove rest (fs_remove fs filename)
                  (deleted ++ [filename]) errors
            | Some e =>
                delete_loop os_remove rest fs deleted
                  (errors ++ ["Error deleting " ++ filename ++ ": " ++ e])
            end
        | None =>
            delete_loop os_remove rest fs deleted
              (errors ++ ["File not found: " ++ filename])
        end
  end.

Definition delete_files (os_remove : string -> option string) (filenames : list string)
  (fs : cache_fs) : delete_outcome :=
  delete_loop os_remove filenames fs [] [].

(** ** [delete_all_files] (app.py, lines 107-121)

    [dir_exists] is [os.path.exists(output_dir)], [listing] is
    [os.listdir(output_dir)] (distinct names); the result is the directory
    afterwards and the [deleted] count. *)
Definition delete_all_files (dir_exists : bool) (listing : list string)
  (os_remove : string -> option string) (fs : cache_fs) : cache_fs * Z :=
  if negb dir_exists then (fs, 0%Z) else
  fold_left
    (fun (acc : cache_fs * Z) f =>
       let '(fs, count) := acc in
       if ends_with ".json" f then
         match os_remove f with
         | None => (fs_remove fs f, (count + 1)%Z)
         | Some _ => (fs, count)
         end
       else (fs, count))
    listing (fs, 0%Z).

(** ** [list_files] (app.py, lines 43-81)

    [os_stat f] is the [modified] string and [st_size] of the entry, or
    [None] when [os.stat] or the timestamp formatting raises (the entry is
    then skipped by the outer [except]). *)

Record file_entry : Type := mk_entry {
  fe_filename : string;
  fe_title : json;
  fe_modified : string;
  fe_size : Z
}.

(** Lines 58-68: the [deal_title] of the file, the filename when it is
    missing or falsy, and also when reading fails or the JSON is not a
    dict ([.get] raises, [except: pass]). *)
Definition listed_title (fs : cache_fs) (f : string) : json :=
  match fs f with
  | Some (CacheJson (JObj data)) =>
      let title := dict_get_default data "deal_title" (JStr f) in
      if py_truthy title then title else JStr f
  | _ => JStr f
  end.

(** [files.sort(key=lambda x: x['modified'], reverse=True)]: a stable sort
    in descending order, entries with equal keys keeping their order. *)
Fixpoint insert_by_modified (e : file_entry) (l : list file_entry) : list file_entry :=
  match l with
  | [] => [e]
  | y :: ys =>
      if str_lt (fe_modified y) (fe_modified e) then e :: y :: ys
      else y :: insert_by_modified e ys
  end.

Definition sort_by_modified_desc (l : list file_entry) : list file_entry :=
  fold_left (fun acc e => insert_by_modified e acc) l [].

Definition listed_entry (os_stat : string -> option (string * Z)) (fs : cache_fs)
  (f : string) : list file_entry :=
  if ends_with ".json" f then
    match os_stat f with
    | Some (modified, size) => [mk_entry f (listed_title fs f) modified size]
    | None => []
    end
  else [].

Definition list_files (dir_exists : bool) (listing : list string)
  (os_stat : string -> option (string * Z)) (fs : cache_fs) : list file_entry :=
  if negb dir_exists then []
  else sort_by_modified_desc (flat_map (listed_entry os_stat fs) listing).

Local Close Scope string_scope.

(** ** [chat_with_data] (app.py, lines 123-237)

    The Gemini calls are oracles: [generate prompt] is
    [model.generate_content(prompt).text], or [None] when it raises;
    [send history message] is [chat.send_message(message).text] on a chat
    started with [history] ([inl]), or [inr (str(e))] when it raises.
    A history entry is the pair [(role, parts[0])]. *)

Local Open Scope string_scope.

Record chat_request : Type := mk_chat_request {
  cr_filename : string;
  cr_message : string;
  cr_history : list json;
  cr_use_summary : bool
}.

Inductive chat_result : Type :=
| ChatReply (text : string)
| ChatHttpError (status : Z) (detail : string)
| ChatCrash.

Record chat_outcome : Type := mk_chat {
  chat_reply : chat_result;
  chat_files : cache_fs;
  chat_prompts : list string;
  chat_sent : option (list (string * json) * string)
}.

Definition spaces (n : nat) : string := String.concat "" (repeat " " n).

(** The f-string of lines 186-196 *)
Definition system_prompt (deal_title deal_description context_text : string) : string :=
  "You are a helpful assistant analyzing a Slickdeals thread." ++ nl
  ++ spaces 4 ++ nl
  ++ spaces 4 ++ "DEAL TITLE: " ++ deal_title ++ nl
  ++ spaces 4 ++ nl
  ++ spaces 4 ++ "DEAL DESCRIPTION:" ++ nl
  ++ spaces 4 ++ deal_description ++ nl
  ++ spaces 4 ++ nl
  ++ spaces 4 ++ context_text ++ nl
  ++ spaces 4 ++ nl
  ++ spaces 4 ++ "Answer the user's questions based on the deal details and the user comments." ++ nl
  ++ spaces 4.

(** The f-string of lines 162-168 *)
Definition summary_prompt (comments_full : string) : string :=
  "Summarize the following Slickdeals thread. " ++ nl
  ++ spaces 12 ++ "Focus on the general sentiment, key questions asked, answers given, and any important warnings or tips from users." ++ nl
  ++ spaces 12 ++ nl
  ++ spaces 12 ++ "Comments:" ++ nl
  ++ spaces 12 ++ comments_full ++ nl
  ++ spaces 12.

Definition user_question (system_prompt question : string) : string :=
  system_prompt ++ nl ++ nl ++ "User Question: " ++ question.

(** [needle in x] for a JSON value: substring on [str], element on
    [list], key on [dict]; [TypeError] on the other types. *)
Definition py_in_str (needle : string) (x : json) : option bool :=
  match x with
  | JStr s => Some (str_contains needle s)
  | JList l =>
      Some (existsb (fun v => match v with JStr s => String.eqb s needle | _ => false end) l)
  | JObj d => Some (dict_has d needle)
  | _ => None
  end.

(** Lines 206-211: [role] and [parts[0]] of a history message;
    [msg.get] raises on a non-dict message. *)
Definition history_entry (msg : json) : option (string * json) :=
  match msg with
  | JObj m =>
      let role :=
        match dict_get m "role" with
        | Some (JStr r) => if String.eqb r "user" then "user" else "model"
        | _ => "model"
        end in
      Some (role, dict_get_default m "content" (JStr ""))
  | _ => None
  end.

Section Chat.

Variable py_str : json -> string.

(** Lines 217-224: the system prompt is prepended to the first message
    when it is a user message that does not contain ["DEAL TITLE:"]. *)
Definition inject_context (system_prompt : string) (hist : list (string * json))
  : option (list (string * json)) :=
  match hist with
  | (role, part) :: rest =>
      if String.eqb role "user" then
        match py_in_str "DEAL TITLE:" part with
        | Some true => Some hist
        | Some false => Some ((role, JStr (user_question system_prompt (py_str part))) :: rest)
        | None => None
        end
      else Some hist
  | [] => Some []
  end.

(** [f"{c['author']}: {c['text']}"] (line 158) *)
Definition summary_line (c : json) : option string :=
  match c with
  | JObj d =>
      match dict_get d "author", dict_get d "text" with
      | Some a, Some t => Some (py_str a ++ ": " ++ py_str t)
      | _, _ => None
      end
  | _ => None
  end.

(** [f"{c['author']} ({c['date']}): {c['text']}"] (line 180) *)
Definition full_line (c : json) : option string :=
  match c with
  | JObj d =>
      match dict_get d "author", dict_get d "date", dict_get d "text" with
      | Some a, Some dt, Some t => Some (py_str a ++ " (" ++ py_str dt ++ "): " ++ py_str t)
      | _, _, _ => None
      end
  | _ => None
  end.

(** ["\n".join(line(c) for c in data.get('comments', []))] *)
Definition join_comments (line : json -> option string) (data : list (string * json))
  : option string :=
  match py_iter (dict_get_default data "comments" (JList [])) with
  | Some cs => option_map (py_join nl) (map_option line cs)
  | None => None
  end.

(** Lines 148-183: the context text, the files afterwards and the prompts
    sent to [generate_content]; [None] when an exception escapes. *)
Definition chat_context (generate : string -> option string) (fs : cache_fs)
  (filename : string) (data : list (string * json)) (use_summary : bool)
  : option (string * cache_fs * list string) :=
  if use_summary then
    if dict_has data "deal_summary" && py_truthy (dict_get_none data "deal_summary") then
      Some ("SUMMARY OF COMMENTS:" ++ nl ++ py_str (dict_get_none data "deal_summary"), fs, [])
    else
      match join_comments summary_line data with
      | None => None
      | Some joined =>
          let comments_full := truncate_with 30000 "..." joined in
          let prompt := summary_prompt comments_full in
          match generate prompt with
          | Some summary_text =>
              Some ("SUMMARY OF COMMENTS:" ++ nl ++ summary_text,
                    fs_write fs filename
                      (CacheJson (JObj (dict_set data "deal_summary" (JStr summary_text)))),
                    [prompt])
          | None =>
              Some ("Error generating summary. Using raw comments." ++ nl ++ comments_full,
                    fs, [prompt])
          end
      end
  else
    match join_comments full_line data with
    | None => None
    | Some joined =>
        Some ("COMMENTS FROM USERS:" ++ nl ++ truncate_with 30000 "...(truncated)" joined,
              fs, [])
    end.

Definition reply_of (r : string + string) : chat_result :=
  match r with
  | inl text => ChatReply text
  | inr e => ChatHttpError 500 ("Gemini API Error: " ++ e)
  end.

Definition chat_with_data (api_key_set : bool) (generate : string -> option string)
  (send : list (string * json) -> string -> string + string)
  (fs : cache_fs) (request : chat_request) : chat_outcome :=
  if negb api_key_set then
    mk_chat (ChatHttpError 500 "GOOGLE_API_KEY environment variable not set") fs [] None
  else
    match fs (cr_filename request) with
    | None => mk_chat (ChatHttpError 404 "Data file not found") fs [] None
    | Some CacheUnreadable => mk_chat (ChatHttpError 500 "Failed to read data file") fs [] None
    | Some (CacheJson (JObj data)) =>
        let deal_title := dict_get_default data "deal_title" (JStr "Unknown Deal") in
        let deal_description := dict_get_default data "deal_description" (JStr "") in
        match chat_context generate fs (cr_filename request) data (cr_use_summary request) with
        | None => mk_chat ChatCrash fs [] None
        | Some (context_text, fs', prompts) =>
            let sp := system_prompt (py_str deal_title) (py_str deal_description) context_text in
            match map_option history_entry (cr_history request) with
            | None => mk_chat ChatCrash fs' prompts None
            | Some [] =>
                let full_prompt := user_question sp (cr_message request) in
                mk_chat (reply_of (send [] full_prompt)) fs' prompts (Some ([], full_prompt))
            | Some hist =>
                match inject_context sp hist with
                | None => mk_chat ChatCrash fs' prompts None
                | Some hist' =>
                    mk_chat (reply_of (send hist' (cr_message request))) fs' prompts
                      (Some (hist', cr_message request))
                end
            end
        end
    | Some (CacheJson _) => mk_chat ChatCrash fs [] None
    end.

End Chat.

Local Close Scope string_scope.

(** ** Concrete library behaviour for the examples

    Small stand-ins for the library functions, enough to run the scraper
    on the concrete inputs of the examples below. *)

Module Demo.

(** [str()] on the string values the examples put in comment keys *)
Definition str (v : json) : string :=
  match v with JStr s => s | _ => EmptyString end.

(** A polynomial string hash *)
Fixpoint hash (s : string) : Z :=
  match s with
  | EmptyString => 0
  | String c r => Z.of_nat (nat_of_ascii c) + 31 * hash r
  end.

Definition strip_html (s : string) : string := s.

(** [parse_qs(urlparse(u).query).get('page')] on the URLs of the
    examples: the value after [page=] up to the next [&]. *)
Fixpoint page_param (u : string) : option (list string) :=
  match u with
  | EmptyString => None
  | String c r =>
      match u with
      | String "p" (String "a" (String "g" (String "e" (String "=" v)))) =>
          Some [before_char "&" v]
      | _ => page_param r
      end
  end.

(** [int()] on unsigned decimal strings *)
Fixpoint dec_value (s : string) (acc : Z) : option Z :=
  match s with
  | EmptyString => Some acc
  | String c r =>
      if is_digit c then dec_value r (10 * acc + Z.of_nat (nat_of_ascii c - 48))
      else None
  end.

Definition int (s : string) : option Z :=
  match s with EmptyString => None | _ => dec_value s 0 end.

(** [re.search] of the payload script on the two pages of the examples *)
Definition find_nuxt (html : string) : option string :=
  if String.eqb html "page-title-html" then Some "payload-title"%string
  else if String.eqb html "page-comment-html" then Some "payload-comment"%string
  else None.

(** Page 1 of a thread with a title and no comment *)
Definition title_data : json :=
  JList [JObj [("mainDesktopBlock"%string, JInt 1)];
         JObj [("dealTitle"%string, JInt 2)];
         JStr "Great deal"].

(** A page with one Featured comment *)
Definition comment_data : json :=
  JList [JObj [("commentText"%string, JInt 1); ("author"%string, JInt 2)];
         JStr "Nice"; JStr "alice"].

Definition loads (payload : string) : option json :=
  if String.eqb payload "payload-title" then Some title_data
  else if String.eqb payload "payload-comment" then Some comment_data
  else None.

Definition alice : comment := mk_comment "Featured" (JStr "alice") (JStr "Nice") (JStr "").

(** Every request fails *)
Definition fetch_fail (url : string) : fetch_result := FetchFail.
(** Every page is the title-only page, served without redirect *)
Definition fetch_title (url : string) : fetch_result := FetchOk url "page-title-html".
(** Every page is the same one-comment page, served without redirect *)
Definition fetch_comment (url : string) : fetch_result := FetchOk url "page-comment-html".
(** Every request is redirected to page 2 *)
Definition fetch_to_page2 (url : string) : fetch_result :=
  FetchOk "https://example.com/f/1-deal?sort=oldest&page=2" "page-comment-html".

Definition thread_url : string := "https://example.com/f/1-deal?utm=x".
Definition base_url : string := "https://example.com/f/1-deal".

Definition req (max_pages : Z) (force_refresh : bool) : scrape_request :=
  mk_request thread_url max_pages force_refresh.

Definition no_files : cache_fs := fun _ => None.

(** A cache directory holding the record of a scrape at depth 3 *)
Definition cached_fields : list (string * json) :=
  [("deal_title"%string, JStr ""); ("deal_description"%string, JStr "");
   ("count"%string, JInt 0); ("comments"%string, JList []);
   ("saved_to"%string, JStr "deal_1.json"); ("source"%string, JStr "scrape");
   ("max_pages_request"%string, JInt 3)].

Definition files3 : cache_fs :=
  fun n => if String.eqb n "deal_1.json" then Some (CacheJson (JObj cached_fields))
           else None.

Definition scrape := scrape_comments str hash find_nuxt loads strip_html page_param int.
Definition fresh := fresh_scrape str hash find_nuxt loads strip_html page_param int.
Definition loop := page_loop str hash find_nuxt loads strip_html page_param int.

(** The Gemini model of the chat examples: it always summarises and answers *)
Definition summarize (prompt : string) : option string := Some "Mostly positive"%string.
Definition answer (history : list (string * json)) (message : string) : string + string :=
  inl "Yes"%string.
Definition chat := chat_with_data str.
Definition ask (use_summary : bool) (history : list json) : chat_request :=
  mk_chat_request "deal_1.json" "Is it good?" history use_summary.
Definition first_question : json :=
  JObj [("role"%string, JStr "user"); ("content"%string, JStr "Is it cheap?")].
(** [os.remove] and [os.stat] succeeding on every file *)
Definition remove_ok (f : string) : option string := None.
Definition stat_ok (f : string) : option (string * Z) :=
  Some ("2026-01-01 10:00:00"%string, 512).
End Demo.

(** ** Observations used by the statements below *)



(** The [max_pages_request] field of a cache file holding a dict *)
Definition stored_max_pages (fs : cache_fs) (name : string) : option json :=
  match fs name with
  | Some (CacheJson (JObj d)) => dict_get d "max_pages_request"%string
  | _ => None
  end.

(** Page 1 ends pagination before its payload is decoded: the fetch
    fails, the [__NUXT_DATA__] script is missing, or its text is not JSON. *)
Definition page1_unparsed (find_nuxt_data : string -> option string)
  (json_loads : string -> option json) (fetch : string -> fetch_result)
  (base_url : string) : Prop :=
  fetch (page_url base_url 1) = FetchFail \/
  exists final_url html,
    fetch (page_url base_url 1) = FetchOk final_url html /\
    (find_nuxt_data html = None \/
     exists payload, find_nuxt_data html = Some payload /\ json_loads payload = None).

(** The dedup invariant of the running state: the keys of the kept
    comments are pairwise distinct, each is in the running set, and each
    key of the running set is the key of a kept comment. *)
Definition dedup_inv (key : comment -> Z) (seen : list Z) (cs : list comment) : Prop :=
  NoDup (map key cs) /\
  (forall c, In c cs -> In (key c) seen) /\
  (forall k, In k seen -> exists c, In c cs /\ key c = k).

(** The same invariant along one page: [pcs] are the page comments kept so
    far on top of [cs], counted by [n], and nothing has been added to the
    running set while [pcs] is empty. *)
Definition page_inv (key : comment -> Z) (cs : list comment) (seen0 : list Z)
  (acc : list Z * nat * list comment) : Prop :=
  let '(seen, n, pcs) := acc in
  dedup_inv key seen (cs ++ pcs) /\ n = length pcs /\ (pcs = [] -> seen = seen0).

(** Every character of [s] satisfies [p] *)
Fixpoint str_forall (p : ascii -> bool) (s : string) : bool :=
  match s with
  | EmptyString => true
  | String c r => p c && str_forall p r
  end.

(** [os.remove(f)] does not raise *)
Definition remove_succeeds (os_remove : string -> option string) (f : string) : bool :=
  match os_remove f with None => true | Some _ => false end.

(** Two neighbours of a [list_files] answer: the first is not older. *)
Definition not_older (a b : file_entry) : Prop :=
  str_lt (fe_modified a) (fe_modified b) = false.

Definition modified_is (k : string) (e : file_entry) : bool :=
  String.eqb (fe_modified e) k.

(** The loop state at the end of pagination, raised or not *)
Definition loop_state (r : loop_result) : scrape_state :=
  match r with LoopDone st => st | LoopRaise st => st end.

(** The role of a Gemini history entry is one the API accepts. *)
Definition gemini_role (e : string * json) : Prop :=
  fst e = "user"%string \/ fst e = "model"%string.

(** ** Properties *)

Section Claims.

Variable py_str : json -> string.
Variable py_hash : string -> Z.
Variable find_nuxt_data : string -> option string.
Variable json_loads : string -> option json.
Variable strip_html : string -> string.
Variable url_page_param : string -> option (list string).
Variable py_int : string -> option Z.

Abbreviation scrape := (scrape_comments py_str py_hash find_nuxt_data json_loads
                      strip_html url_page_param py_int).
Abbreviation loop := (page_loop py_str py_hash find_nuxt_data json_loads
                    strip_html url_page_param py_int).
Abbreviation fresh := (fresh_scrape py_str py_hash find_nuxt_data json_loads
                     strip_html url_page_param py_int).

Lemma dict_set_get_other (d : list (string * json)) (k k' : string) (v : json) :
  k' <> k -> dict_get (dict_set d k v) k' = dict_get d k'.
Proof.
  intros Hne. induction d as [|[k0 v0] r IH]; simpl.
  - destruct (String.eqb_spec k' k); [contradiction | reflexivity].
  - destruct (String.eqb_spec k k0) as [->|Hk]; simpl.
    + destruct (String.eqb_spec k' k0); [contradiction | reflexivity].
    + destruct (String.eqb k' k0); [reflexivity | exact IH].
Qed.

Lemma dict_set_get_same (d : list (string * json)) (k : string) (v : json) :
  dict_get (dict_set d k v) k = Some v.
Proof.
  induction d as [|[k0 v0] r IH]; simpl.
  - rewrite String.eqb_refl; reflexivity.
  - destruct (String.eqb_spec k k0) as [->|Hk]; simpl.
    + rewrite String.eqb_refl; reflexivity.
    + apply String.eqb_neq in Hk. rewrite Hk. exact IH.
Qed.

(** C1 (as amended): [resolve_ref(data, index)] returns [data[index]]
    for an integer index in [0, len(data)), treats a boolean index as the
    integer 1 or 0, and returns [None] for every other index: integers out
    of range, floats, strings, lists, dicts and [None]. *)
Theorem resolve_ref_bounds :
  forall data,
  (forall i, 0 <= i < Z.of_nat (length data) ->
     resolve_ref data (JInt i) = nth (Z.to_nat i) data JNull) /\
  (forall i, ~ (0 <= i < Z.of_nat (length data)) -> resolve_ref data (JInt i) = JNull) /\
  (forall b, resolve_ref data (JBool b) = resolve_ref data (JInt (Z.b2z b))) /\
  (forall index, (forall i, index <> JInt i) -> (forall b, index <> JBool b) ->
     resolve_ref data index = JNull).
Proof.
  intros data. unfold resolve_ref. repeat split.
  - intros i [H0 H1]. simpl.
    apply Z.leb_le in H0. apply Z.ltb_lt in H1. rewrite H0, H1. reflexivity.
  - intros i Hout. simpl.
    destruct (0 <=? i) eqn:E0, (i <? Z.of_nat (length data)) eqn:E1; try reflexivity.
    apply Z.leb_le in E0. apply Z.ltb_lt in E1. exfalso. apply Hout. lia.
  - intros index Hi Hb. destruct index; try reflexivity.
    + exfalso. apply (Hb b). reflexivity.
    + exfalso. apply (Hi z). reflexivity.
Qed.

(** C10: a boolean index is an integer index: [resolve_ref(data, True)]
    is [data[1]] and [resolve_ref(data, False)] is [data[0]] as soon as
    [data] has two elements. *)
Theorem resolve_ref_bool_index :
  forall data, (2 <= length data)%nat ->
  resolve_ref data (JBool true) = nth 1 data JNull /\
  resolve_ref data (JBool false) = nth 0 data JNull.
Proof.
  intros data Hlen. unfold resolve_ref. simpl.
  assert (H1 : (1 <? Z.of_nat (length data)) = true) by (apply Z.ltb_lt; lia).
  assert (H0 : (0 <? Z.of_nat (length data)) = true) by (apply Z.ltb_lt; lia).
  rewrite H0, H1. split; reflexivity.
Qed.

(** C2: with [force_refresh] false and a cached record whose
    [max_pages_request] is at least the requested depth, the scrape
    fetches nothing, leaves the cache untouched and returns the cached
    record with only [source] set to ["cache"]; when the requested depth
    exceeds the stored one, the fresh scrape runs instead. *)
Theorem cache_depth_policy :
  forall fetch req fs filename d v q,
  derive_filename (strip_query (req_url req)) = Some filename ->
  req_force_refresh req = false ->
  fs filename = Some (CacheJson (JObj d)) ->
  dict_get d "max_pages_request"%string = Some v ->
  py_num v = Some q ->
  ((inject_Z (req_max_pages req) <= q)%Q ->
     exists cached,
       scrape fetch req fs = mk_outcome (Some (JObj cached)) fs [] /\
       dict_get cached "source"%string = Some (JStr "cache") /\
       (forall k, k <> "source"%string -> dict_get cached k = dict_get d k)) /\
  ((q < inject_Z (req_max_pages req))%Q ->
     scrape fetch req fs
     = fresh fetch (strip_query (req_url req)) filename (req_max_pages req) fs).
Proof.
  intros fetch req fs filename d v q Hname Hforce Hfile Hget Hnum.
  unfold scrape_comments, cache_lookup, py_int_gt, dict_get_default.
  rewrite Hname, Hforce, Hfile, Hget, Hnum.
  split.
  - intros Hle. apply Qle_bool_iff in Hle. rewrite Hle. simpl.
    exists (dict_set d "source" (JStr "cache")). split; [reflexivity|]. split.
    + apply dict_set_get_same.
    + intros k Hk. apply dict_set_get_other. exact Hk.
  - intros Hlt.
    destruct (Qle_bool (inject_Z (req_max_pages req)) q) eqn:E.
    + apply Qle_bool_iff in E. exfalso. apply (Qlt_not_le _ _ Hlt E).
    + reflexivity.
Qed.

Lemma fold_add_comment_seen :
  forall cs seen new pcs,
  Forall (fun c => In (comment_key py_str py_hash c) seen) cs ->
  fold_left (add_comment py_str py_hash) cs (seen, new, pcs) = (seen, new, pcs).
Proof.
  induction cs as [|c cs IH]; intros seen new pcs Hall; simpl; [reflexivity|].
  inversion Hall as [|? ? Hc Hcs]; subst.
  assert (E : existsb (Z.eqb (comment_key py_str py_hash c)) seen = true).
  { apply existsb_exists. exists (comment_key py_str py_hash c).
    split; [exact Hc | apply Z.eqb_refl]. }
  rewrite E. apply IH. exact Hcs.
Qed.

(** The page step once the page has been fetched without redirect and
    its payload decoded to an iterable value. *)
Lemma scrape_page_parsed :
  forall fetch base page st final_url html payload data items,
  fetch (page_url base page) = FetchOk final_url html ->
  redirect_stop url_page_param py_int page final_url = false ->
  find_nuxt_data html = Some payload ->
  json_loads payload = Some data ->
  py_iter data = Some items ->
  let meta := if page =? 1 then extract_meta strip_html data (st_title st) (st_desc st)
              else (st_title st, st_desc st) in
  let '(seen, new, pcs) :=
    extract_page py_str py_hash (data_list data) items (st_seen st) in
  scrape_page py_str py_hash find_nuxt_data json_loads strip_html url_page_param py_int
    fetch base page st
  = if Nat.eqb new 0 then
      Stop (mk_state seen (fst meta) (snd meta) (st_comments st)
              (st_requests st ++ [page_url base page]))
    else
      Continue (mk_state seen (fst meta) (snd meta) (st_comments st ++ pcs)
                  (st_requests st ++ [page_url base page])).
Proof.
  intros fetch base page st final_url html payload data items
    Hfetch Hred Hfind Hloads Hiter meta.
  unfold scrape_page. cbv zeta. rewrite Hfetch, Hred, Hfind, Hloads.
  subst meta. simpl st_title; simpl st_desc; simpl st_seen; simpl st_comments;
    simpl st_requests.
  destruct (if page =? 1 then extract_meta strip_html data (st_title st) (st_desc st)
            else (st_title st, st_desc st)) as [title desc].
  rewrite Hiter.
  destruct (extract_page py_str py_hash (data_list data) items (st_seen st))
    as [[seen new] pcs].
  reflexivity.
Qed.

(** C3: a page whose extraction yields no new comment ends pagination
    right after it: nothing further is fetched and the aggregate keeps
    exactly the comments of the earlier pages.  This is the case in
    particular when every comment the page yields has a key already in the
    running dedup set, as for a page repeating an already processed one. *)
Theorem zero_new_page_stops :
  forall fetch base n page st final_url html payload data items,
  fetch (page_url base page) = FetchOk final_url html ->
  redirect_stop url_page_param py_int page final_url = false ->
  find_nuxt_data html = Some payload ->
  json_loads payload = Some data ->
  py_iter data = Some items ->
  (snd (fst (extract_page py_str py_hash (data_list data) items (st_seen st))) = O \/
   Forall (fun c => In (comment_key py_str py_hash c) (st_seen st))
     (flat_map (item_comments (data_list data)) items)) ->
  exists st',
    loop fetch base (S n) page st = LoopDone st' /\
    st_comments st' = st_comments st /\
    st_requests st' = st_requests st ++ [page_url base page].
Proof.
  intros fetch base n page st final_url html payload data items
    Hfetch Hred Hfind Hloads Hiter Hzero.
  assert (Hnew : snd (fst (extract_page py_str py_hash (data_list data) items (st_seen st)))
                 = O).
  { destruct Hzero as [H | H]; [exact H|].
    unfold extract_page. rewrite fold_add_comment_seen by exact H. reflexivity. }
  pose proof (scrape_page_parsed fetch base page st final_url html payload data items
                Hfetch Hred Hfind Hloads Hiter) as Hstep.
  cbv zeta in Hstep.
  destruct (extract_page py_str py_hash (data_list data) items (st_seen st))
    as [[seen new] pcs].
  simpl in Hnew. subst new. simpl in Hstep.
  simpl. rewrite Hstep.
  eexists. split; [reflexivity|]. split; reflexivity.
Qed.

(** C4: on a page after the first, a final URL whose [page] parameter is
    missing, or whose first value is not the requested page number,
    ends pagination without error and without adding any comment. *)
Theorem redirect_page_stops :
  forall fetch base n page st final_url html,
  1 < page ->
  fetch (page_url base page) = FetchOk final_url html ->
  (url_page_param final_url = None \/
   exists v rest, url_page_param final_url = Some (v :: rest) /\ py_int v <> Some page) ->
  loop fetch base (S n) page st = LoopDone (log_request st (page_url base page)).
Proof.
  intros fetch base n page st final_url html Hpage Hfetch Hparam.
  assert (Hred : redirect_stop url_page_param py_int page final_url = true).
  { unfold redirect_stop.
    assert (H1 : (1 <? page) = true) by (apply Z.ltb_lt; exact Hpage).
    rewrite H1.
    destruct Hparam as [-> | [v [rest [Hv Hint]]]]; [reflexivity|].
    rewrite Hv. destruct (py_int v) as [fp|] eqn:Efp; [|reflexivity].
    destruct (Z.eqb_spec fp page) as [->|Hne]; [contradiction | reflexivity]. }
  simpl. unfold scrape_page. cbv zeta. rewrite Hfetch, Hred. reflexivity.
Qed.

Lemma fetch_failure_step :
  forall fetch base n page st,
  fetch (page_url base page) = FetchFail ->
  loop fetch base (S n) page st = LoopDone (log_request st (page_url base page)).
Proof.
  intros fetch base n page st Hfetch.
  simpl. unfold scrape_page. cbv zeta. rewrite Hfetch. reflexivity.
Qed.

(** C5 (as amended): a fetch failure on any page, page 1 included, is
    swallowed and ends pagination with the comments gathered so far; when
    page 1 fails, the scrape returns (and writes to the cache) the empty
    record instead of raising. *)
Theorem fetch_failure_swallowed :
  forall fetch base,
  (forall n page st,
     fetch (page_url base page) = FetchFail ->
     loop fetch base (S n) page st = LoopDone (log_request st (page_url base page))) /\
  (forall filename max_pages fs,
     1 <= max_pages ->
     fetch (page_url base 1) = FetchFail ->
     fresh fetch base filename max_pages fs =
     mk_outcome (Some (deal_record "" "" [] filename max_pages))
       (fs_write fs filename (CacheJson (deal_record "" "" [] filename max_pages)))
       [page_url base 1]).
Proof.
  intros fetch base. split.
  - intros n page st Hfetch. apply fetch_failure_step. exact Hfetch.
  - intros filename max_pages fs Hmax Hfetch.
    unfold fresh_scrape.
    destruct (Z.to_nat max_pages) as [|k] eqn:Ek; [lia|].
    rewrite (fetch_failure_step fetch base k 1 init_state Hfetch). reflexivity.
Qed.

(** C6 (as amended): without [force_refresh], a scrape never lowers
    the [max_pages_request] stored for the thread: it either leaves the
    file as it was or rewrites it with the requested depth, which is then
    strictly greater than the stored one.  With [force_refresh], a scrape
    that completes (returns a record) stores the requested depth, whatever
    was stored before, so it may lower it. *)
Theorem max_pages_request_monotone :
  (forall fetch req fs filename v q,
   derive_filename (strip_query (req_url req)) = Some filename ->
   req_force_refresh req = false ->
   stored_max_pages fs filename = Some v ->
   py_num v = Some q ->
   files (scrape fetch req fs) filename = fs filename \/
   (stored_max_pages (files (scrape fetch req fs)) filename
      = Some (JInt (req_max_pages req)) /\
    (q < inject_Z (req_max_pages req))%Q)) /\
  (forall fetch req fs filename r,
   derive_filename (strip_query (req_url req)) = Some filename ->
   req_force_refresh req = true ->
   response (scrape fetch req fs) = Some r ->
   stored_max_pages (files (scrape fetch req fs)) filename
   = Some (JInt (req_max_pages req))).
Proof.
  split.
  - intros fetch req fs filename v q Hname Hforce Hstored Hnum.
    unfold stored_max_pages in Hstored.
    destruct (fs filename) as [[[| | | | | |d]|]|] eqn:Hfile; try discriminate.
    unfold scrape_comments. rewrite Hname.
    unfold cache_lookup, py_int_gt, dict_get_default.
    rewrite Hforce, Hfile, Hstored, Hnum.
    destruct (Qle_bool (inject_Z (req_max_pages req)) q) eqn:E.
    + left. simpl. exact Hfile.
    + unfold fresh_scrape.
      destruct (page_loop _ _ _ _ _ _ _ _ _ _ _ _) as [st|st].
      * right. split.
        -- unfold stored_max_pages, fs_write. simpl files.
           rewrite String.eqb_refl. reflexivity.
        -- apply Qnot_le_lt. intros Hle. apply Qle_bool_iff in Hle.
           rewrite Hle in E. discriminate.
      * left. simpl. exact Hfile.
  - intros fetch req fs filename r Hname Hforce.
    unfold scrape_comments. rewrite Hname.
    unfold cache_lookup. rewrite Hforce.
    unfold fresh_scrape.
    destruct (page_loop _ _ _ _ _ _ _ _ _ _ _ _) as [st|st]; [|discriminate].
    intros _. unfold stored_max_pages, fs_write. simpl files.
    rewrite String.eqb_refl. reflexivity.
Qed.

Lemma add_comment_inv :
  forall cs seen0 acc c,
  page_inv (comment_key py_str py_hash) cs seen0 acc ->
  page_inv (comment_key py_str py_hash) cs seen0 (add_comment py_str py_hash acc c).
Proof.
  intros cs seen0 [[seen n] pcs] c [[Hnd [Hin Hcov]] [Hn Hnil]].
  unfold add_comment.
  destruct (existsb (Z.eqb (comment_key py_str py_hash c)) seen) eqn:E.
  - repeat split; assumption.
  - assert (Hnot : ~ In (comment_key py_str py_hash c) seen).
    { intros H. assert (existsb (Z.eqb (comment_key py_str py_hash c)) seen = true)
        as E'.
      { apply existsb_exists. exists (comment_key py_str py_hash c).
        split; [exact H | apply Z.eqb_refl]. }
      rewrite E' in E. discriminate. }
    repeat split.
    + rewrite app_assoc, map_app. apply NoDup_app.
      * exact Hnd.
      * constructor; [intros []|constructor].
      * intros a Ha [Heq|[]]. subst a.
        apply in_map_iff in Ha as [c' [Hk Hc']].
        apply Hnot. rewrite <- Hk. apply Hin. exact Hc'.
    + intros c' Hc'. rewrite app_assoc in Hc'. apply in_app_or in Hc' as [H|[H|[]]].
      * right. apply Hin. exact H.
      * subst c'. left. reflexivity.
    + intros k [Hk|Hk].
      * exists c. split; [|exact Hk].
        rewrite app_assoc. apply in_or_app. right. left. reflexivity.
      * destruct (Hcov k Hk) as [c' [Hc' Hkc']]. exists c'. split; [|exact Hkc'].
        rewrite app_assoc. apply in_or_app. left. exact Hc'.
    + rewrite length_app. simpl. lia.
    + intros H. destruct pcs; discriminate H.
Qed.

Lemma fold_add_comment_inv :
  forall cs seen0 items acc,
  page_inv (comment_key py_str py_hash) cs seen0 acc ->
  page_inv (comment_key py_str py_hash) cs seen0
    (fold_left (add_comment py_str py_hash) items acc).
Proof.
  intros cs seen0 items. induction items as [|c items IH]; intros acc Hacc; simpl.
  - exact Hacc.
  - apply IH. apply add_comment_inv. exact Hacc.
Qed.

Lemma scrape_page_inv :
  forall fetch base page st,
  dedup_inv (comment_key py_str py_hash) (st_seen st) (st_comments st) ->
  match scrape_page py_str py_hash find_nuxt_data json_loads strip_html url_page_param
          py_int fetch base page st with
  | Continue st' | Stop st' | Raise st' =>
      dedup_inv (comment_key py_str py_hash) (st_seen st') (st_comments st')
  end.
Proof.
  intros fetch base page st Hinv.
  unfold scrape_page. cbv zeta.
  destruct (fetch (page_url base page)) as [|final_url html]; [exact Hinv|].
  destruct (redirect_stop url_page_param py_int page final_url); [exact Hinv|].
  destruct (find_nuxt_data html) as [payload|]; [|exact Hinv].
  destruct (json_loads payload) as [data|]; [|exact Hinv].
  destruct (if page =? 1 then _ else _) as [title desc].
  destruct (py_iter data) as [items|]; [|exact Hinv].
  assert (Hstart : page_inv (comment_key py_str py_hash) (st_comments st) (st_seen st)
                     (st_seen st, O, [])).
  { simpl. rewrite app_nil_r. repeat split; try apply Hinv. }
  pose proof (fold_add_comment_inv (st_comments st) (st_seen st)
                (flat_map (item_comments (data_list data)) items) _ Hstart) as Hend.
  unfold extract_page. simpl st_seen; simpl st_comments.
  destruct (fold_left _ _ _) as [[seen new] pcs].
  destruct Hend as [Hd [Hn Hnil]].
  destruct (Nat.eqb_spec new 0) as [Hz|Hz]; simpl.
  - rewrite Hz in Hn. destruct pcs; [|discriminate Hn].
    rewrite app_nil_r in Hd. exact Hd.
  - exact Hd.
Qed.

Lemma page_loop_inv :
  forall fetch base fuel page st st',
  dedup_inv (comment_key py_str py_hash) (st_seen st) (st_comments st) ->
  loop fetch base fuel page st = LoopDone st' ->
  dedup_inv (comment_key py_str py_hash) (st_seen st') (st_comments st').
Proof.
  intros fetch base fuel. induction fuel as [|n IH]; intros page st st' Hinv Hrun.
  - simpl in Hrun. injection Hrun as <-. exact Hinv.
  - simpl in Hrun.
    pose proof (scrape_page_inv fetch base page st Hinv) as Hstep.
    destruct (scrape_page _ _ _ _ _ _ _ _ _ _ _) as [s1|s1|s1].
    + exact (IH (page + 1) s1 st' Hstep Hrun).
    + injection Hrun as <-. exact Hstep.
    + discriminate Hrun.
Qed.

Lemma comment_key_triple :
  forall c, comment_key py_str py_hash c =
    (fun '(a, d, t) => py_hash (py_str a ++ "|" ++ py_str d ++ "|" ++ py_str t)%string)
      (comment_triple c).
Proof. intros [ty a t d]. reflexivity. Qed.

(** C7: in the record of a completed scrape no two comments share the
    [(author, date, text)] triple, whichever shape and page produced them,
    and every key in the running dedup set (every comment the extractor
    produced on the processed pages) is the key of a kept comment. *)
Theorem scrape_dedup_by_triple :
  forall fetch base filename max_pages fs r fs' reqs,
  fresh fetch base filename max_pages fs = mk_outcome (Some r) fs' reqs ->
  exists st,
    loop fetch base (Z.to_nat max_pages) 1 init_state = LoopDone st /\
    r = deal_record (st_title st) (st_desc st) (st_comments st) filename max_pages /\
    NoDup (map comment_triple (st_comments st)) /\
    (forall k, In k (st_seen st) ->
       exists c, In c (st_comments st) /\ comment_key py_str py_hash c = k).
Proof.
  intros fetch base filename max_pages fs r fs' reqs Hrun.
  unfold fresh_scrape in Hrun.
  destruct (page_loop _ _ _ _ _ _ _ _ _ _ _ _) as [st|st] eqn:Eloop;
    [|discriminate Hrun].
  injection Hrun as Hr _ _.
  assert (Hinit : dedup_inv (comment_key py_str py_hash) (st_seen init_state)
                    (st_comments init_state)).
  { simpl. repeat split; [constructor | intros _ [] | intros _ []]. }
  destruct (page_loop_inv _ _ _ _ _ _ Hinit Eloop) as [Hnd [_ Hcov]].
  exists st. split; [reflexivity|]. split; [symmetry; exact Hr|]. split.
  - apply (NoDup_map_inv
             (fun '(a, d, t) => py_hash (py_str a ++ "|" ++ py_str d ++ "|" ++ py_str t)%string)).
    rewrite map_map.
    erewrite map_ext; [exact Hnd|]. intros c. symmetry. apply comment_key_triple.
  - exact Hcov.
Qed.

Lemma py_split_nonnil : forall sep s, py_split sep s <> [].
Proof.
  intros sep s. induction s as [|c r IH]; simpl; [discriminate|].
  destruct (Ascii.eqb c sep); [discriminate|].
  destruct (py_split sep r); [contradiction | discriminate].
Qed.





Lemma find_deal_id_cons :
  forall c r, find_deal_id (String c r)
  = match deal_id_at (String c r) with Some id => Some id | None => find_deal_id r end.
Proof. reflexivity. Qed.



(** C9 (as amended): when pagination ends before page 1's payload is
    decoded (page-1 fetch failure, missing payload script, undecodable
    JSON), or when [max_pages < 1] so that no page is fetched, the scrape
    returns the empty record (empty title and description, count 0, no
    comments, [max_pages_request = max_pages], [source = "scrape"]) and
    overwrites the cache file with it.  When page 1 is decoded but yields
    no comment, the record is again empty of comments but keeps the title
    and description extracted from page 1. *)
Theorem empty_record_when_page1_unparsed :
  forall fetch base filename max_pages fs,
  ((max_pages < 1 \/ page1_unparsed find_nuxt_data json_loads fetch base) ->
     response (fresh fetch base filename max_pages fs)
     = Some (deal_record "" "" [] filename max_pages) /\
     files (fresh fetch base filename max_pages fs)
     = fs_write fs filename (CacheJson (deal_record "" "" [] filename max_pages))) /\
  (forall final_url html payload data items,
     1 <= max_pages ->
     fetch (page_url base 1) = FetchOk final_url html ->
     find_nuxt_data html = Some payload ->
     json_loads payload = Some data ->
     py_iter data = Some items ->
     snd (fst (extract_page py_str py_hash (data_list data) items [])) = O ->
     let meta := extract_meta strip_html data "" "" in
     response (fresh fetch base filename max_pages fs)
     = Some (deal_record (fst meta) (snd meta) [] filename max_pages) /\
     files (fresh fetch base filename max_pages fs)
     = fs_write fs filename
         (CacheJson (deal_record (fst meta) (snd meta) [] filename max_pages))).
Proof.
  intros fetch base filename max_pages fs. split.
  - intros Hcase. unfold fresh_scrape.
    destruct (Z_lt_le_dec max_pages 1) as [Hlt|Hge].
    + replace (Z.to_nat max_pages) with O by lia. split; reflexivity.
    + destruct Hcase as [Hlt|Hunparsed]; [lia|].
      destruct (Z.to_nat max_pages) as [|k] eqn:Ek; [lia|].
      cbn [page_loop]. unfold scrape_page. cbv zeta.
      destruct Hunparsed as [Hfail | [final_url [html [Hok Hrest]]]].
      * rewrite Hfail. split; reflexivity.
      * rewrite Hok. simpl redirect_stop.
        cbv iota.
        destruct Hrest as [Hnone | [payload [Hfind Hloads]]].
        -- rewrite Hnone. split; reflexivity.
        -- rewrite Hfind, Hloads. split; reflexivity.
  - intros final_url html payload data items Hge Hok Hfind Hloads Hiter Hzero meta.
    unfold fresh_scrape.
    destruct (Z.to_nat max_pages) as [|k] eqn:Ek; [lia|].
    assert (Hred : redirect_stop url_page_param py_int 1 final_url = false)
      by reflexivity.
    pose proof (scrape_page_parsed fetch base 1 init_state final_url html payload data
                  items Hok Hred Hfind Hloads Hiter) as Hstep.
    cbv zeta in Hstep. simpl st_seen in Hstep.
    destruct (extract_page py_str py_hash (data_list data) items []) as [[seen new] pcs].
    simpl in Hzero. subst new.
    cbn [page_loop]. rewrite Hstep. simpl. split; reflexivity.
Qed.

End Claims.

(** ** Witnesses and counterexamples *)

(** C1: the boolean [True] is not an integer JSON value, yet it indexes
    [data[1]] instead of resolving to [None]. *)
Lemma resolve_ref_true_counterexample :
  (forall i, JBool true <> JInt i) /\
  resolve_ref [JInt 10; JInt 20] (JBool true) = JInt 20 /\
  JInt 20 <> JNull.
Proof.
  split; [intros i H; discriminate H|]. split; [reflexivity | discriminate].
Qed.

Lemma resolve_ref_bool_index_witness :
  (2 <= length [JStr "a"; JStr "b"; JNull])%nat /\
  resolve_ref [JStr "a"; JStr "b"; JNull] (JBool true) = JStr "b" /\
  resolve_ref [JStr "a"; JStr "b"; JNull] (JBool false) = JStr "a".
Proof.
  split; [simpl; lia|].
  exact (resolve_ref_bool_index [JStr "a"; JStr "b"; JNull] ltac:(simpl; lia)).
Defined.

Lemma cache_depth_policy_witness :
  exists cached,
    Demo.scrape Demo.fetch_fail (Demo.req 2 false) Demo.files3
    = mk_outcome (Some (JObj cached)) Demo.files3 [] /\
    dict_get cached "source"%string = Some (JStr "cache").
Proof.
  destruct (cache_depth_policy Demo.str Demo.hash Demo.find_nuxt Demo.loads
              Demo.strip_html Demo.page_param Demo.int Demo.fetch_fail
              (Demo.req 2 false) Demo.files3 "deal_1.json" Demo.cached_fields
              (JInt 3) (inject_Z 3) eq_refl eq_refl eq_refl eq_refl eq_refl)
    as [Hcache _].
  destruct Hcache as [cached [Hrun [Hsrc _]]]; [unfold Qle; simpl; lia|].
  exists cached. split; [exact Hrun | exact Hsrc].
Defined.

Lemma zero_new_page_stops_witness :
  exists st',
    Demo.loop Demo.fetch_comment Demo.base_url 5 2
      (mk_state [Demo.hash "alice||Nice"] "" "" [Demo.alice]
         [page_url Demo.base_url 1])
    = LoopDone st' /\
    st_comments st' = [Demo.alice].
Proof.
  destruct (zero_new_page_stops Demo.str Demo.hash Demo.find_nuxt Demo.loads
              Demo.strip_html Demo.page_param Demo.int Demo.fetch_comment
              Demo.base_url 4 2
              (mk_state [Demo.hash "alice||Nice"] "" "" [Demo.alice]
                 [page_url Demo.base_url 1])
              (page_url Demo.base_url 2) "page-comment-html" "payload-comment"
              Demo.comment_data [JObj [("commentText"%string, JInt 1); ("author"%string, JInt 2)];
                                 JStr "Nice"; JStr "alice"]
              eq_refl eq_refl eq_refl eq_refl eq_refl (or_introl eq_refl))
    as [st' [Hrun [Hcs _]]].
  exists st'. split; [exact Hrun | exact Hcs].
Defined.

Lemma redirect_page_stops_witness :
  Demo.loop Demo.fetch_to_page2 Demo.base_url 3 3
    (mk_state [] "" "" [Demo.alice] [])
  = LoopDone (mk_state [] "" "" [Demo.alice] [page_url Demo.base_url 3]).
Proof.
  apply (redirect_page_stops Demo.str Demo.hash Demo.find_nuxt Demo.loads
           Demo.strip_html Demo.page_param Demo.int Demo.fetch_to_page2
           Demo.base_url 2 3 (mk_state [] "" "" [Demo.alice] [])
           "https://example.com/f/1-deal?sort=oldest&page=2" "page-comment-html").
  - lia.
  - reflexivity.
  - right. exists "2"%string, []. split; [reflexivity | discriminate].
Defined.

Lemma max_pages_request_monotone_witness :
  stored_max_pages (files (Demo.scrape Demo.fetch_fail (Demo.req 5 false) Demo.files3))
    "deal_1.json" = Some (JInt 5) /\
  stored_max_pages (files (Demo.scrape Demo.fetch_fail (Demo.req 2 true) Demo.files3))
    "deal_1.json" = Some (JInt 2).
Proof.
  destruct (max_pages_request_monotone Demo.str Demo.hash Demo.find_nuxt Demo.loads
              Demo.strip_html Demo.page_param Demo.int) as [Hkeep Hforce].
  split.
  - destruct (Hkeep Demo.fetch_fail (Demo.req 5 false) Demo.files3 "deal_1.json"%string
                (JInt 3) (inject_Z 3) eq_refl eq_refl eq_refl eq_refl)
      as [Hsame | [Hnew _]].
    + vm_compute in Hsame. discriminate Hsame.
    + exact Hnew.
  - exact (Hforce Demo.fetch_fail (Demo.req 2 true) Demo.files3 "deal_1.json"%string
             (deal_record ""%string ""%string [] "deal_1.json"%string 2) eq_refl eq_refl eq_refl).
Defined.

Lemma scrape_dedup_by_triple_witness :
  exists st,
    Demo.loop Demo.fetch_comment Demo.base_url 3 1 init_state = LoopDone st /\
    NoDup (map comment_triple (st_comments st)).
Proof.
  destruct (scrape_dedup_by_triple Demo.str Demo.hash Demo.find_nuxt Demo.loads
              Demo.strip_html Demo.page_param Demo.int Demo.fetch_comment
              Demo.base_url "deal_1.json" 3 Demo.no_files
              (deal_record "" "" [Demo.alice] "deal_1.json" 3)
              (fs_write Demo.no_files "deal_1.json"
                 (CacheJson (deal_record "" "" [Demo.alice] "deal_1.json" 3)))
              [page_url Demo.base_url 1; page_url Demo.base_url 2]
              eq_refl)
    as [st [Hrun [_ [Hnd _]]]].
  exists st. split; [exact Hrun | exact Hnd].
Defined.

(** C5: a failing page-1 fetch is not surfaced: the scrape returns the
    empty record. *)
Lemma page1_failure_not_surfaced :
  response (Demo.scrape Demo.fetch_fail (Demo.req 1 false) Demo.no_files)
  = Some (deal_record "" "" [] "deal_1.json" 1) /\
  response (Demo.scrape Demo.fetch_fail (Demo.req 1 false) Demo.no_files) <> None.
Proof. split; [reflexivity | discriminate]. Qed.

(** C6: a [force_refresh] scrape at depth 2 replaces a stored depth of 3. *)
Lemma force_refresh_lowers_depth :
  stored_max_pages Demo.files3 "deal_1.json" = Some (JInt 3) /\
  stored_max_pages (files (Demo.scrape Demo.fetch_fail (Demo.req 2 true) Demo.files3))
    "deal_1.json" = Some (JInt 2).
Proof. split; reflexivity. Qed.


(** C9: page 1 decoded with a title and no comment: pagination stops with
    no comment extracted, yet the record carries the title. *)
Lemma zero_comment_page1_keeps_title :
  response (Demo.scrape Demo.fetch_title (Demo.req 2 false) Demo.no_files)
  = Some (deal_record "Great deal" "" [] "deal_1.json" 2) /\
  deal_record "Great deal" "" [] "deal_1.json" 2
  <> deal_record "" "" [] "deal_1.json" 2.
Proof. split; [reflexivity | discriminate]. Qed.

(** ** Properties of the file endpoints *)

Section FileEndpoints.

Variable os_remove : string -> option string.

Lemma fs_remove_same (fs : cache_fs) (f : string) : fs_remove fs f f = None.
Proof. unfold fs_remove. rewrite String.eqb_refl. reflexivity. Qed.

Lemma fs_remove_other (fs : cache_fs) (f n : string) :
  n <> f -> fs_remove fs f n = fs n.
Proof. intros H. unfold fs_remove. apply String.eqb_neq in H. rewrite H. reflexivity. Qed.

Lemma fs_remove_some (fs : cache_fs) (f n : string) :
  fs_remove fs f n <> None -> fs n <> None.
Proof.
  unfold fs_remove. destruct (String.eqb n f); [intros H; contradiction H; reflexivity | auto].
Qed.

Lemma delete_loop_files :
  forall names fs deleted errors,
    exists new,
      del_deleted (delete_loop os_remove names fs deleted errors) = deleted ++ new /\
      forall n, del_files (delete_loop os_remove names fs deleted errors) n
                = if existsb (String.eqb n) new then None else fs n.
Proof.
  induction names as [|f rest IH]; intros fs deleted errors; simpl.
  - exists []. split; [rewrite app_nil_r; reflexivity | reflexivity].
  - destruct (invalid_filename f); [apply IH|].
    destruct (fs f) as [c|]; [|apply IH].
    destruct (os_remove f) as [e|]; [apply IH|].
    destruct (IH (fs_remove fs f) (deleted ++ [f]) errors) as [new [Hd Hf]].
    exists (f :: new). split.
    + rewrite Hd, <- app_assoc. reflexivity.
    + intros n. rewrite Hf. simpl. unfold fs_remove.
      destruct (String.eqb n f); simpl; [destruct (existsb _ new)|]; reflexivity.
Qed.

Lemma delete_loop_deleted_sound :
  forall names fs deleted errors n,
    In n (del_deleted (delete_loop os_remove names fs deleted errors)) ->
    In n deleted \/
    (In n names /\ invalid_filename n = false /\ fs n <> None /\ os_remove n = None).
Proof.
  induction names as [|f rest IH]; intros fs deleted errors n; simpl.
  - auto.
  - destruct (invalid_filename f) eqn:Hinv.
    + intros H. destruct (IH _ _ _ _ H) as [? | [? ?]]; auto.
    + destruct (fs f) as [c|] eqn:Hf.
      * destruct (os_remove f) as [e|] eqn:Hrm.
        -- intros H. destruct (IH _ _ _ _ H) as [? | [? ?]]; auto.
        -- intros H. destruct (IH _ _ _ _ H) as [Hin | [Hin [Hv [Hs Hr]]]].
           ++ apply in_app_or in Hin. destruct Hin as [Hin | [<- | []]]; [auto|].
              right. repeat split; auto. rewrite Hf. discriminate.
           ++ right. repeat split; auto. eapply fs_remove_some; eauto.
      * intros H. destruct (IH _ _ _ _ H) as [? | [? ?]]; auto.
Qed.

Lemma delete_loop_deleted_complete :
  forall names fs deleted errors n,
    In n deleted \/
    (In n names /\ invalid_filename n = false /\ fs n <> None /\ os_remove n = None) ->
    In n (del_deleted (delete_loop os_remove names fs deleted errors)).
Proof.
  induction names as [|f rest IH]; intros fs deleted errors n H; simpl.
  - destruct H as [H | [[] _]]. exact H.
  - destruct (String.eqb_spec n f) as [->|Hne].
    + destruct H as [H | [_ [Hv [Hs Hr]]]].
      * destruct (invalid_filename f); [apply IH; auto|].
        destruct (fs f); [|apply IH; auto].
        destruct (os_remove f); apply IH; left; auto using in_or_app.
      * rewrite Hv. destruct (fs f) as [c|]; [|contradiction Hs; reflexivity].
        rewrite Hr. apply IH. left. apply in_or_app. right. left. reflexivity.
    + assert (H' : In n deleted \/
                   (In n rest /\ invalid_filename n = false /\ fs n <> None
                    /\ os_remove n = None)).
      { destruct H as [H | [[Hin | Hin] Hrest]]; [auto | congruence | auto]. }
      destruct (invalid_filename f); [apply IH; exact H'|].
      destruct (fs f); [|apply IH; exact H'].
      destruct (os_remove f); apply IH.
      * exact H'.
      * destruct H' as [H' | [Hin [Hv [Hs Hr]]]].
        -- left. apply in_or_app. left. exact H'.
        -- right. repeat split; auto. rewrite fs_remove_other; auto.
Qed.

Lemma delete_loop_nodup :
  forall names fs deleted errors,
    NoDup deleted -> (forall x, In x deleted -> fs x = None) ->
    NoDup (del_deleted (delete_loop os_remove names fs deleted errors)).
Proof.
  induction names as [|f rest IH]; intros fs deleted errors Hnd Hgone; simpl.
  - exact Hnd.
  - destruct (invalid_filename f); [apply IH; auto|].
    destruct (fs f) as [c|] eqn:Hf; [|apply IH; auto].
    destruct (os_remove f); apply IH; auto.
    + apply NoDup_app; [exact Hnd | constructor; [intros []| constructor] |].
      intros x Hx [Heq | []]. rewrite Heq, (Hgone x Hx) in Hf. discriminate.
    + intros x Hx. apply in_app_or in Hx. destruct Hx as [Hx | [<- | []]].
      * destruct (String.eqb_spec x f) as [->|Hne]; [apply fs_remove_same|].
        rewrite fs_remove_other; auto.
      * apply fs_remove_same.
Qed.

Lemma delete_loop_lengths :
  forall names fs deleted errors,
    (length (del_deleted (delete_loop os_remove names fs deleted errors))
     + length (del_errors (delete_loop os_remove names fs deleted errors))
     = length deleted + length errors + length names)%nat.
Proof.
  induction names as [|f rest IH]; intros fs deleted errors; simpl.
  - lia.
  - destruct (invalid_filename f); [rewrite IH, length_app; simpl; lia|].
    destruct (fs f); [|rewrite IH, length_app; simpl; lia].
    destruct (os_remove f); rewrite IH, length_app; simpl; lia.
Qed.

(** X1: after [delete_files] the directory is the one before, with
    exactly the names reported in [deleted] removed. *)
Theorem delete_files_only_deleted_change :
  forall filenames fs n,
    del_files (delete_files os_remove filenames fs) n
    = if existsb (String.eqb n) (del_deleted (delete_files os_remove filenames fs))
      then None else fs n.
Proof.
  intros filenames fs n. unfold delete_files.
  destruct (delete_loop_files filenames fs [] []) as [new [Hd Hf]].
  rewrite Hf, Hd. reflexivity.
Qed.

(** X2: [deleted] has no duplicates, and a name is in it exactly when it
    was requested, passes the traversal check, existed, and its
    [os.remove] succeeded. *)
Theorem delete_files_deleted_iff :
  forall filenames fs,
    NoDup (del_deleted (delete_files os_remove filenames fs)) /\
    forall n,
      In n (del_deleted (delete_files os_remove filenames fs)) <->
      In n filenames /\ invalid_filename n = false /\ fs n <> None /\ os_remove n = None.
Proof.
  intros filenames fs. unfold delete_files. split.
  - apply delete_loop_nodup; [constructor | intros x []].
  - intros n. split.
    + intros H. destruct (delete_loop_deleted_sound _ _ _ _ _ H) as [[] | H']. exact H'.
    + intros H. apply delete_loop_deleted_complete. right. exact H.
Qed.

(** X3: every requested name yields exactly one entry, in [deleted] or in
    [errors]. *)
Theorem delete_files_one_entry_per_name :
  forall filenames fs,
    (length (del_deleted (delete_files os_remove filenames fs))
     + length (del_errors (delete_files os_remove filenames fs))
     = length filenames)%nat.
Proof.
  intros filenames fs. unfold delete_files. rewrite delete_loop_lengths. reflexivity.
Qed.

Lemma delete_all_fold :
  forall listing fs count,
    let r := fold_left
               (fun (acc : cache_fs * Z) f =>
                  let '(fs, count) := acc in
                  if ends_with ".json" f then
                    match os_remove f with
                    | None => (fs_remove fs f, (count + 1)%Z)
                    | Some _ => (fs, count)
                    end
                  else (fs, count))
               listing (fs, count) in
    (forall n, fst r n
               = if existsb (fun f => String.eqb n f && ends_with ".json" f
                                      && remove_succeeds os_remove f) listing
                 then None else fs n) /\
    snd r = count + Z.of_nat (length (filter (fun f => ends_with ".json" f
                                                      && remove_succeeds os_remove f)
                                        listing)).
Proof.
  induction listing as [|f rest IH]; intros fs count; simpl.
  - split; [reflexivity | lia].
  - destruct (ends_with ".json" f) eqn:Hj; simpl.
    + destruct (os_remove f) as [e|] eqn:Hrm; simpl.
      * assert (Hrs : remove_succeeds os_remove f = false)
          by (unfold remove_succeeds; rewrite Hrm; reflexivity).
        destruct (IH fs count) as [Hf Hc]. rewrite Hrs. split; [|exact Hc].
        intros n. rewrite Hf. rewrite andb_false_r. reflexivity.
      * assert (Hrs : remove_succeeds os_remove f = true)
          by (unfold remove_succeeds; rewrite Hrm; reflexivity).
        destruct (IH (fs_remove fs f) (count + 1)) as [Hf Hc]. rewrite Hrs. split.
        -- intros n. rewrite Hf. rewrite !andb_true_r. unfold fs_remove.
           destruct (String.eqb n f); simpl; [destruct (existsb _ rest)|]; reflexivity.
        -- rewrite Hc. simpl length. rewrite Nat2Z.inj_succ. lia.
    + destruct (IH fs count) as [Hf Hc]. split; [|exact Hc].
      intros n. rewrite Hf. rewrite andb_false_r. reflexivity.
Qed.

(** X4: [delete_all_files] removes exactly the listed [.json] names whose
    [os.remove] succeeds, touches nothing else, and counts them. *)
Theorem delete_all_files_effect :
  forall listing fs,
    (forall n, fst (delete_all_files true listing os_remove fs) n
               = if existsb (fun f => String.eqb n f && ends_with ".json" f
                                      && remove_succeeds os_remove f) listing
                 then None else fs n) /\
    snd (delete_all_files true listing os_remove fs)
    = Z.of_nat (length (filter (fun f => ends_with ".json" f
                                         && remove_succeeds os_remove f) listing)).
Proof.
  intros listing fs. unfold delete_all_files. simpl negb. cbv iota.
  apply (delete_all_fold listing fs 0).
Qed.

End FileEndpoints.

(** *** [list_files] order *)

Lemma str_compare_refl (s : string) : String.compare s s = Eq.
Proof.
  induction s as [|c s IH]; simpl; [reflexivity|].
  unfold Ascii.compare. rewrite N.compare_refl. exact IH.
Qed.

Lemma str_compare_lt_trans :
  forall s1 s2 s3,
    String.compare s1 s2 = Lt -> String.compare s2 s3 = Lt -> String.compare s1 s3 = Lt.
Proof.
  induction s1 as [|a s1 IH]; intros [|b s2] [|c s3]; simpl; try congruence.
  unfold Ascii.compare.
  destruct (N.compare_spec (N_of_ascii a) (N_of_ascii b)) as [Hab|Hab|Hab];
  destruct (N.compare_spec (N_of_ascii b) (N_of_ascii c)) as [Hbc|Hbc|Hbc];
  intros H1 H2; try congruence.
  - rewrite Hab, Hbc, N.compare_refl. eauto.
  - rewrite Hab. apply N.compare_lt_iff in Hbc. rewrite Hbc. reflexivity.
  - rewrite <- Hbc. apply N.compare_lt_iff in Hab. rewrite Hab. reflexivity.
  - assert (Hac : N.lt (N_of_ascii a) (N_of_ascii c)) by (eapply N.lt_trans; eauto).
    apply N.compare_lt_iff in Hac. rewrite Hac. reflexivity.
Qed.

Lemma str_lt_true (a b : string) : str_lt a b = true <-> String.compare a b = Lt.
Proof. unfold str_lt. destruct (String.compare a b); split; congruence. Qed.

Lemma str_lt_asym (a b : string) : str_lt a b = true -> str_lt b a = false.
Proof.
  unfold str_lt. rewrite (String.compare_antisym b a).
  destruct (String.compare a b); simpl; congruence.
Qed.

Lemma str_lt_irrefl (a : string) : str_lt a a = false.
Proof. unfold str_lt. rewrite str_compare_refl. reflexivity. Qed.

(** [b <= a < e] gives [b < e] *)
Lemma str_le_lt_trans (a b e : string) :
  str_lt a b = false -> str_lt a e = true -> str_lt b e = true.
Proof.
  intros Hab Hae. apply str_lt_true in Hae. apply str_lt_true.
  unfold str_lt in Hab. rewrite (String.compare_antisym a b) in Hab.
  destruct (String.compare b a) eqn:Hba; simpl in Hab; try discriminate.
  - apply String.compare_eq_iff in Hba. subst. exact Hae.
  - eapply str_compare_lt_trans; eauto.
Qed.

Lemma insert_hdrel (y e : file_entry) (l : list file_entry) :
  HdRel not_older y l -> not_older y e -> HdRel not_older y (insert_by_modified e l).
Proof.
  intros Hd Hye. destruct l as [|z zs]; simpl.
  - constructor. exact Hye.
  - destruct (str_lt (fe_modified z) (fe_modified e)); constructor; [exact Hye|].
    inversion Hd. assumption.
Qed.

Lemma insert_sorted (e : file_entry) (l : list file_entry) :
  Sorted not_older l -> Sorted not_older (insert_by_modified e l).
Proof.
  induction l as [|y ys IH]; intros Hs; simpl.
  - repeat constructor.
  - destruct (str_lt (fe_modified y) (fe_modified e)) eqn:Hlt.
    + constructor; [exact Hs|]. constructor. apply str_lt_asym. exact Hlt.
    + apply Sorted_inv in Hs. destruct Hs as [Hs Hd].
      constructor; [apply IH; exact Hs|]. apply insert_hdrel; [exact Hd | exact Hlt].
Qed.

Lemma insert_perm (e : file_entry) (l : list file_entry) :
  Permutation (insert_by_modified e l) (e :: l).
Proof.
  induction l as [|y ys IH]; simpl; [reflexivity|].
  destruct (str_lt (fe_modified y) (fe_modified e)); [reflexivity|].
  eapply perm_trans; [apply perm_skip; exact IH | apply perm_swap].
Qed.

Lemma sort_fold_sorted :
  forall l acc, Sorted not_older acc ->
    Sorted not_older (fold_left (fun acc e => insert_by_modified e acc) l acc).
Proof.
  induction l as [|e l IH]; intros acc Hs; simpl; [exact Hs|].
  apply IH. apply insert_sorted. exact Hs.
Qed.

Lemma sort_fold_perm :
  forall l acc,
    Permutation (fold_left (fun acc e => insert_by_modified e acc) l acc) (l ++ acc).
Proof.
  induction l as [|e l IH]; intros acc; simpl; [reflexivity|].
  eapply perm_trans; [apply IH|].
  eapply perm_trans; [apply Permutation_app_head, insert_perm|].
  apply Permutation_sym, Permutation_middle.
Qed.

(** X5: [list_files] answers its entries newest first: the list is
    sorted by [modified] in descending order and holds exactly the
    entries built from the listing. *)
Theorem list_files_sorted_permutation :
  forall listing os_stat fs,
    Sorted not_older (list_files true listing os_stat fs) /\
    Permutation (list_files true listing os_stat fs)
                (flat_map (listed_entry os_stat fs) listing).
Proof.
  intros listing os_stat fs. unfold list_files, sort_by_modified_desc. simpl negb. cbv iota.
  split.
  - apply sort_fold_sorted. constructor.
  - rewrite <- (app_nil_r (flat_map _ _)) at 2. apply sort_fold_perm.
Qed.

Lemma sorted_all_older (e y : file_entry) (ys : list file_entry) :
  Sorted not_older (y :: ys) -> str_lt (fe_modified y) (fe_modified e) = true ->
  forall z, In z (y :: ys) -> str_lt (fe_modified z) (fe_modified e) = true.
Proof.
  revert y. induction ys as [|z0 zs IH]; intros y Hs Hlt z Hz;
    destruct Hz as [<- | Hz]; try exact Hlt.
  - simpl in Hz. contradiction.
  - apply Sorted_inv in Hs. destruct Hs as [Hs Hd]. inversion Hd; subst.
    apply (IH z0 Hs); [|exact Hz].
    eapply str_le_lt_trans; eauto.
Qed.

Lemma filter_all_older (e : file_entry) (l : list file_entry) :
  (forall z, In z l -> str_lt (fe_modified z) (fe_modified e) = true) ->
  filter (modified_is (fe_modified e)) l = [].
Proof.
  induction l as [|z zs IH]; intros H; simpl; [reflexivity|].
  unfold modified_is at 1. destruct (String.eqb_spec (fe_modified z) (fe_modified e)) as [Heq|_].
  - specialize (H z (or_introl eq_refl)). rewrite Heq, str_lt_irrefl in H. discriminate.
  - apply IH. intros z' Hz'. apply H. right. exact Hz'.
Qed.

Lemma filter_insert (k : string) (e : file_entry) (l : list file_entry) :
  Sorted not_older l ->
  filter (modified_is k) (insert_by_modified e l)
  = filter (modified_is k) l ++ (if modified_is k e then [e] else []).
Proof.
  induction l as [|y ys IH]; intros Hs; simpl.
  - destruct (modified_is k e); reflexivity.
  - destruct (str_lt (fe_modified y) (fe_modified e)) eqn:Hlt.
    + simpl. destruct (modified_is k e) eqn:Hk.
      * unfold modified_is in Hk. apply String.eqb_eq in Hk. subst k.
        pose proof (filter_all_older e (y :: ys) (sorted_all_older e y ys Hs Hlt)) as H0.
        simpl in H0. rewrite H0. reflexivity.
      * rewrite app_nil_r. reflexivity.
    + simpl. apply Sorted_inv in Hs. destruct Hs as [Hs _].
      destruct (modified_is k y); rewrite IH by exact Hs; reflexivity.
Qed.

Lemma sort_fold_filter (k : string) :
  forall l acc, Sorted not_older acc ->
    filter (modified_is k) (fold_left (fun acc e => insert_by_modified e acc) l acc)
    = filter (modified_is k) acc ++ filter (modified_is k) l.
Proof.
  induction l as [|e l IH]; intros acc Hs; simpl.
  - rewrite app_nil_r. reflexivity.
  - rewrite IH by (apply insert_sorted; exact Hs).
    rewrite filter_insert by exact Hs. rewrite <- app_assoc.
    destruct (modified_is k e); reflexivity.
Qed.

(** X6: the sort is stable: entries with the same [modified] string keep
    their directory order. *)
Theorem list_files_stable :
  forall listing os_stat fs k,
    filter (modified_is k) (list_files true listing os_stat fs)
    = filter (modified_is k) (flat_map (listed_entry os_stat fs) listing).
Proof.
  intros listing os_stat fs k. unfold list_files, sort_by_modified_desc. simpl negb. cbv iota.
  rewrite sort_fold_filter by constructor. reflexivity.
Qed.

(** *** Names produced by the filename derivation *)

Lemma str_app_assoc (a b c : string) : ((a ++ b) ++ c = a ++ (b ++ c))%string.
Proof. induction a as [|x a IH]; simpl; [reflexivity | rewrite IH; reflexivity]. Qed.

Lemma str_length_app (a b : string) :
  String.length (a ++ b) = (String.length a + String.length b)%nat.
Proof. induction a as [|x a IH]; simpl; [reflexivity | rewrite IH; reflexivity]. Qed.

Lemma str_forall_app (p : ascii -> bool) (a b : string) :
  str_forall p (a ++ b) = str_forall p a && str_forall p b.
Proof.
  induction a as [|x a IH]; simpl; [reflexivity|]. rewrite IH, andb_assoc. reflexivity.
Qed.

Lemma has_char_app (c : ascii) (a b : string) :
  has_char c (a ++ b) = has_char c a || has_char c b.
Proof.
  induction a as [|x a IH]; simpl; [reflexivity|]. rewrite IH, orb_assoc. reflexivity.
Qed.

Lemma str_forall_no_char (p : ascii -> bool) (c : ascii) (s : string) :
  str_forall p s = true -> p c = false -> has_char c s = false.
Proof.
  intros Hs Hc. induction s as [|x s IH]; simpl; [reflexivity|].
  simpl in Hs. apply andb_true_iff in Hs. destruct Hs as [Hx Hs].
  rewrite (IH Hs), orb_false_r.
  destruct (Ascii.eqb_spec x c) as [->|_]; [congruence | reflexivity].
Qed.

Lemma str_forall_impl (p q : ascii -> bool) (s : string) :
  (forall c, p c = true -> q c = true) -> str_forall p s = true -> str_forall q s = true.
Proof.
  intros Hpq. induction s as [|x s IH]; simpl; [reflexivity|].
  intros H. apply andb_true_iff in H. destruct H as [Hx Hs].
  rewrite (Hpq x Hx), (IH Hs). reflexivity.
Qed.

Lemma str_forall_substring (p : ascii -> bool) :
  forall s n m, str_forall p s = true -> str_forall p (substring n m s) = true.
Proof.
  induction s as [|x s IH]; intros n m H; simpl.
  - destruct n, m; reflexivity.
  - simpl in H. apply andb_true_iff in H. destruct H as [Hx Hs].
    destruct n as [|n]; [destruct m as [|m]; simpl|].
    + reflexivity.
    + rewrite Hx. apply IH. exact Hs.
    + apply IH. exact Hs.
Qed.

Lemma digit_run_digits (s : string) : str_forall is_digit (digit_run s) = true.
Proof.
  induction s as [|x s IH]; simpl; [reflexivity|].
  destruct (is_digit x) eqn:Hx; simpl; [rewrite Hx, IH|]; reflexivity.
Qed.

Lemma deal_id_at_digits (s id : string) :
  deal_id_at s = Some id -> str_forall is_digit id = true.
Proof.
  unfold deal_id_at. destruct s as [|c1 [|c2 [|c3 [|d r]]]]; try discriminate.
  destruct (Ascii.eqb c1 "/" && Ascii.eqb c2 "f" && Ascii.eqb c3 "/" && is_digit d) eqn:H;
    [|discriminate].
  intros Hid. injection Hid as <-. simpl.
  apply andb_true_iff in H. destruct H as [_ Hd]. rewrite Hd, digit_run_digits. reflexivity.
Qed.

Lemma find_deal_id_digits (s id : string) :
  find_deal_id s = Some id -> str_forall is_digit id = true.
Proof.
  induction s as [|c r IH]; [discriminate|].
  rewrite find_deal_id_cons. destruct (deal_id_at (String c r)) as [id'|] eqn:H.
  - intros Hid. injection Hid as <-. eapply deal_id_at_digits. exact H.
  - exact IH.
Qed.

Lemma sanitize_slug_chars (s : string) : str_forall is_slug_char (sanitize_slug s) = true.
Proof.
  induction s as [|x s IH]; simpl; [reflexivity|].
  destruct (is_slug_char x) eqn:Hx; simpl; [rewrite Hx|]; exact IH.
Qed.

Lemma digit_slug_char (c : ascii) : is_digit c = true -> is_slug_char c = true.
Proof. intros H. unfold is_slug_char. rewrite H. reflexivity. Qed.

Lemma derive_filename_shape (base_url filename : string) :
  derive_filename base_url = Some filename ->
  exists pre mid,
    filename = (pre ++ mid ++ ".json")%string /\
    (pre = "deal_"%string \/ pre = "scrape_"%string) /\
    str_forall is_slug_char mid = true.
Proof.
  unfold derive_filename. destruct (find_deal_id base_url) as [id|] eqn:Hid.
  - intros H. injection H as <-. exists "deal_"%string, id. split; [reflexivity|].
    split; [left; reflexivity|].
    apply (str_forall_impl is_digit); [exact digit_slug_char|].
    eapply find_deal_id_digits. exact Hid.
  - destruct (url_slug base_url) as [slug|]; [|discriminate].
    intros H. injection H as <-.
    exists "scrape_"%string, (str_prefix 50 (sanitize_slug slug)). split; [reflexivity|].
    split; [right; reflexivity|].
    apply str_forall_substring. apply sanitize_slug_chars.
Qed.

Lemma str_contains_cons (needle : string) (c : ascii) (r : string) :
  str_contains needle (String c r)
  = if String.prefix needle (String c r) then true else str_contains needle r.
Proof. reflexivity. Qed.

Lemma prefix_dotdot_false (x : ascii) (t : string) :
  Ascii.eqb x "." = false -> String.prefix ".." (String x t) = false.
Proof.
  intros Hx. destruct (String.prefix ".." (String x t)) eqn:H; [|reflexivity].
  apply String.prefix_correct in H. simpl in H. injection H as Hx' _.
  rewrite Hx', Ascii.eqb_refl in Hx. discriminate Hx.
Qed.

Lemma str_contains_no_dot (a b : string) :
  has_char "." a = false -> str_contains ".." (a ++ b) = str_contains ".." b.
Proof.
  induction a as [|x a IH]; [reflexivity|].
  intros H. simpl in H. apply orb_false_iff in H. destruct H as [Hx Ha].
  change ((String x a ++ b)%string) with (String x (a ++ b)).
  rewrite str_contains_cons, prefix_dotdot_false by exact Hx. exact (IH Ha).
Qed.

Lemma substring_after (x y : string) (n : nat) :
  substring (String.length x) n (x ++ y) = substring 0 n y.
Proof. induction x as [|c x IH]; simpl; [reflexivity | exact IH]. Qed.

Lemma ends_with_json (x : string) : ends_with ".json" (x ++ ".json") = true.
Proof.
  unfold ends_with. rewrite str_length_app. simpl String.length at 1 3 4.
  rewrite Nat.add_sub, substring_after.
  replace (Nat.leb 5 (String.length x + 5)) with true by (symmetry; apply Nat.leb_le; lia).
  reflexivity.
Qed.

Lemma derive_filename_names_ok (base_url filename : string) :
  derive_filename base_url = Some filename ->
  ends_with ".json" filename = true /\ invalid_filename filename = false.
Proof.
  intros H.
  destruct (derive_filename_shape base_url filename H) as [pre [mid [-> [Hpre Hmid]]]].
  assert (Hpm : forall c, is_slug_char c = false -> has_char c pre = false ->
                has_char c (pre ++ mid) = false).
  { intros c Hc Hp. rewrite has_char_app, Hp, (str_forall_no_char _ _ _ Hmid Hc).
    reflexivity. }
  assert (Hpre' : forall c, is_slug_char c = false ->
                  In c ["."%char; "/"%char; backslash] -> has_char c (pre ++ mid) = false).
  { intros c Hc Hin. apply Hpm; [exact Hc|].
    destruct Hin as [<- | [<- | [<- | []]]]; destruct Hpre as [-> | ->]; reflexivity. }
  rewrite <- str_app_assoc. split; [apply ends_with_json|].
  unfold invalid_filename.
  rewrite str_contains_no_dot by (apply Hpre'; [reflexivity | simpl; auto]).
  rewrite (has_char_app "/"%char (pre ++ mid)), (has_char_app backslash (pre ++ mid)).
  rewrite (Hpre' "/"%char), (Hpre' backslash) by (simpl; auto). reflexivity.
Qed.

(** X7: every name the filename derivation produces ends in [.json] and
    passes the traversal check of [delete_files]. *)
Theorem derive_filename_safe :
  forall base_url filename,
    derive_filename base_url = Some filename ->
    ends_with ".json" filename = true /\ invalid_filename filename = false.
Proof. intros base_url filename H. exact (derive_filename_names_ok base_url filename H). Qed.

(** ** Properties of the scraper as a whole *)

Section ScrapeRuns.

Variable py_str : json -> string.
Variable py_hash : string -> Z.
Variable find_nuxt_data : string -> option string.
Variable json_loads : string -> option json.
Variable strip_html : string -> string.
Variable url_page_param : string -> option (list string).
Variable py_int : string -> option Z.

Abbreviation run := (scrape_comments py_str py_hash find_nuxt_data json_loads
                    strip_html url_page_param py_int).
Abbreviation pages := (page_loop py_str py_hash find_nuxt_data json_loads
                      strip_html url_page_param py_int).
Abbreviation page := (scrape_page py_str py_hash find_nuxt_data json_loads
                     strip_html url_page_param py_int).

Lemma scrape_page_requests (fetch : string -> fetch_result) (base_url : string)
  (n : Z) (st : scrape_state) :
  match page fetch base_url n st with
  | Continue st' | Stop st' | Raise st' =>
      st_requests st' = st_requests st ++ [page_url base_url n]
  end.
Proof.
  unfold scrape_page, log_request. cbv zeta.
  destruct (fetch (page_url base_url n)) as [|final_url html]; [reflexivity|].
  destruct (redirect_stop url_page_param py_int n final_url); [reflexivity|].
  destruct (find_nuxt_data html) as [payload|]; [|reflexivity].
  destruct (json_loads payload) as [data|]; [|reflexivity].
  destruct (if n =? 1 then _ else _) as [title desc].
  destruct (py_iter data) as [items|]; [|reflexivity].
  destruct (extract_page _ _ _ _ _) as [[seen new] pcs].
  destruct (Nat.eqb new 0); reflexivity.
Qed.

Lemma page_loop_requests (fetch : string -> fetch_result) (base_url : string) :
  forall fuel n st,
    exists k,
      st_requests (loop_state (pages fetch base_url fuel n st))
      = st_requests st ++ map (fun i => page_url base_url (n + Z.of_nat i)) (seq 0 k) /\
      (k <= fuel)%nat /\ (0 < fuel -> 1 <= k)%nat.
Proof.
  induction fuel as [|fuel IH]; intros n st; simpl.
  - exists O. split; [rewrite app_nil_r; reflexivity | lia].
  - pose proof (scrape_page_requests fetch base_url n st) as Hreq.
    destruct (page fetch base_url n st) as [st'|st'|st'].
    + destruct (IH (n + 1) st') as [k [Hk [Hle _]]].
      exists (S k). split; [|lia].
      rewrite Hk, Hreq, <- app_assoc. simpl. f_equal.
      rewrite Z.add_0_r. f_equal. rewrite <- seq_shift, map_map.
      apply map_ext. intros i. f_equal. lia.
    + exists 1%nat. simpl. rewrite Z.add_0_r. split; [exact Hreq | lia].
    + exists 1%nat. simpl. rewrite Z.add_0_r. split; [exact Hreq | lia].
Qed.

(** X8: a scrape fetches pages [1, 2, ..., k] of the URL stripped of its
    query, in this order, with [k] at most [max_pages]; it fetches nothing
    when it answers from the cache. *)
Theorem scrape_requests_pages_in_order :
  forall fetch req fs,
    exists k,
      requests (run fetch req fs)
      = map (fun i => page_url (strip_query (req_url req)) (1 + Z.of_nat i)) (seq 0 k) /\
      (k <= Z.to_nat (req_max_pages req))%nat.
Proof.
  intros fetch req fs. unfold scrape_comments.
  destruct (derive_filename (strip_query (req_url req))) as [filename|];
    [|exists O; split; [reflexivity | lia]].
  destruct (cache_lookup fs filename (req_max_pages req) (req_force_refresh req));
    [exists O; split; [reflexivity | lia]|].
  unfold fresh_scrape.
  destruct (page_loop_requests fetch (strip_query (req_url req))
              (Z.to_nat (req_max_pages req)) 1 init_state) as [k [Hk [Hle _]]].
  exists k. split; [|exact Hle].
  destruct (pages fetch _ _ 1 init_state); exact Hk.
Qed.

Lemma dict_set_idem (d : list (string * json)) (k : string) (v : json) :
  dict_set (dict_set d k v) k v = dict_set d k v.
Proof.
  induction d as [|[k0 v0] r IH]; simpl.
  - rewrite String.eqb_refl. reflexivity.
  - destruct (String.eqb k k0) eqn:Hk; simpl; rewrite Hk; [reflexivity|].
    rewrite IH. reflexivity.
Qed.

Lemma py_int_gt_mono (m m' : Z) (v : json) :
  py_int_gt m v = Some false -> m' <= m -> py_int_gt m' v = Some false.
Proof.
  unfold py_int_gt. destruct (py_num v) as [q|]; [|discriminate].
  intros H Hle. injection H as H. apply negb_false_iff, Qle_bool_iff in H.
  assert (Hq : (inject_Z m' <= q)%Q)
    by (eapply Qle_trans; [rewrite <- Zle_Qle; exact Hle | exact H]).
  apply Qle_bool_iff in Hq. rewrite Hq. reflexivity.
Qed.

Lemma cache_lookup_hit (fs : cache_fs) (filename : string) (m : Z) (force : bool)
  (cached : json) :
  cache_lookup fs filename m force = Some cached ->
  exists d0,
    fs filename = Some (CacheJson (JObj d0)) /\
    cached = JObj (dict_set d0 "source" (JStr "cache")) /\
    py_int_gt m (dict_get_default d0 "max_pages_request" (JInt 0)) = Some false.
Proof.
  unfold cache_lookup. destruct force; [discriminate|].
  destruct (fs filename) as [[j|]|]; try discriminate.
  destruct j as [| | | | | |d0]; try discriminate.
  destruct (py_int_gt m _) as [[|]|] eqn:E; try discriminate.
  intros H. injection H as <-. exists d0. auto.
Qed.

Lemma cache_lookup_of (fs : cache_fs) (filename : string) (m : Z)
  (d0 : list (string * json)) :
  fs filename = Some (CacheJson (JObj d0)) ->
  py_int_gt m (dict_get_default d0 "max_pages_request" (JInt 0)) = Some false ->
  cache_lookup fs filename m false = Some (JObj (dict_set d0 "source" (JStr "cache"))).
Proof. intros Hf Hgt. unfold cache_lookup. rewrite Hf, Hgt. reflexivity. Qed.

Lemma scrape_stored (fetch : string -> fetch_result) (req : scrape_request)
  (fs : cache_fs) (filename : string) (r : json) :
  derive_filename (strip_query (req_url req)) = Some filename ->
  response (run fetch req fs) = Some r ->
  exists d0,
    files (run fetch req fs) filename = Some (CacheJson (JObj d0)) /\
    (r = JObj d0 \/ r = JObj (dict_set d0 "source" (JStr "cache"))) /\
    py_int_gt (req_max_pages req) (dict_get_default d0 "max_pages_request" (JInt 0))
    = Some false.
Proof.
  intros Hd. unfold scrape_comments. rewrite Hd.
  destruct (cache_lookup fs filename (req_max_pages req) (req_force_refresh req))
    as [cached|] eqn:Hc.
  - simpl. intros H. injection H as <-.
    destruct (cache_lookup_hit _ _ _ _ _ Hc) as [d0 [Hf [-> Hgt]]].
    exists d0. auto.
  - unfold fresh_scrape.
    destruct (pages fetch _ _ 1 init_state) as [st|st]; simpl; [|discriminate].
    intros H. injection H as <-. unfold deal_record.
    eexists. split; [unfold fs_write; rewrite String.eqb_refl; reflexivity|].
    split; [left; reflexivity|].
    unfold py_int_gt. simpl. apply f_equal.
    assert (Hq : Qle_bool (inject_Z (req_max_pages req)) (inject_Z (req_max_pages req)) = true)
      by (apply Qle_bool_iff, Qle_refl).
    rewrite Hq. reflexivity.
Qed.

Lemma scrape_response_filename (fetch : string -> fetch_result) (req : scrape_request)
  (fs : cache_fs) (r : json) :
  response (run fetch req fs) = Some r ->
  exists filename, derive_filename (strip_query (req_url req)) = Some filename.
Proof.
  unfold scrape_comments. destruct (derive_filename _) as [filename|]; [eauto | discriminate].
Qed.

(** X9: a scrape writes at most one file, the one named by the filename
    derivation, and what it writes there is the record it returns. *)
Theorem scrape_writes_only_its_file :
  forall fetch req fs n,
    files (run fetch req fs) n = fs n \/
    (derive_filename (strip_query (req_url req)) = Some n /\
     exists r, response (run fetch req fs) = Some r /\
               files (run fetch req fs) n = Some (CacheJson r)).
Proof.
  intros fetch req fs n. unfold scrape_comments.
  destruct (derive_filename (strip_query (req_url req))) as [filename|];
    [|left; reflexivity].
  destruct (cache_lookup _ _ _ _); [left; reflexivity|].
  unfold fresh_scrape. destruct (pages fetch _ _ 1 init_state); simpl; [|left; reflexivity].
  unfold fs_write. destruct (String.eqb_spec n filename) as [->|_];
    [right; split; [reflexivity | eexists; split; reflexivity] | left; reflexivity].
Qed.

(** X10: repeating a scrape that returned a record, with the same URL,
    without [force_refresh] and with no more pages, answers from the cache
    the same record marked [source = "cache"], without any request and
    without writing. *)
Theorem scrape_repeat_hits_cache :
  forall fetch fetch' req req' fs r,
    response (run fetch req fs) = Some r ->
    req_url req' = req_url req ->
    req_force_refresh req' = false ->
    req_max_pages req' <= req_max_pages req ->
    exists d,
      r = JObj d /\
      run fetch' req' (files (run fetch req fs))
      = mk_outcome (Some (JObj (dict_set d "source" (JStr "cache"))))
                   (files (run fetch req fs)) [].
Proof.
  intros fetch fetch' req req' fs r Hr Hurl Hforce Hle.
  destruct (scrape_response_filename fetch req fs r Hr) as [filename Hd].
  destruct (scrape_stored fetch req fs filename r Hd Hr) as [d0 [Hf [Hrd Hgt]]].
  set (o := run fetch req fs) in *.
  assert (Hhit : cache_lookup (files o) filename (req_max_pages req') false
                 = Some (JObj (dict_set d0 "source" (JStr "cache"))))
    by (apply cache_lookup_of; [exact Hf | eapply py_int_gt_mono; eauto]).
  destruct Hrd as [-> | ->]; eexists; (split; [reflexivity|]);
    unfold scrape_comments at 1; rewrite Hurl, Hd, Hforce, Hhit;
    [reflexivity | rewrite dict_set_idem; reflexivity].
Qed.

(** X11: after a scrape that returned a record, [list_files] shows its
    file (when [os.stat] succeeds) with the record's [deal_title], or the
    filename when that title is empty. *)
Theorem scrape_then_listed :
  forall fetch req fs filename d listing os_stat modified size,
    derive_filename (strip_query (req_url req)) = Some filename ->
    response (run fetch req fs) = Some (JObj d) ->
    In filename listing ->
    os_stat filename = Some (modified, size) ->
    In (mk_entry filename (py_or (dict_get_default d "deal_title" (JStr filename))
                                 (JStr filename)) modified size)
       (list_files true listing os_stat (files (run fetch req fs))).
Proof.
  intros fetch req fs filename d listing os_stat modified size Hd Hr Hin Hstat.
  destruct (scrape_stored fetch req fs filename (JObj d) Hd Hr) as [d0 [Hf [Hrd _]]].
  assert (Htitle : dict_get_default d "deal_title" (JStr filename)
                   = dict_get_default d0 "deal_title" (JStr filename)).
  { destruct Hrd as [Heq | Heq]; injection Heq as ->; [reflexivity|].
    unfold dict_get_default. rewrite dict_set_get_other by discriminate. reflexivity. }
  unfold list_files, sort_by_modified_desc. simpl negb. cbv iota.
  pose proof (sort_fold_perm (flat_map (listed_entry os_stat (files (run fetch req fs)))
                                listing) []) as Hperm.
  rewrite app_nil_r in Hperm.
  apply (Permutation_in _ (Permutation_sym Hperm)).
  apply in_flat_map. exists filename. split; [exact Hin|].
  unfold listed_entry. rewrite (proj1 (derive_filename_names_ok _ _ Hd)), Hstat.
  left. unfold listed_title. rewrite Hf, Htitle. reflexivity.
Qed.

(** X12: a file a scrape wrote can be deleted by name: [delete_files]
    reports it deleted, with no error, and it is gone. *)
Theorem scrape_then_deleted :
  forall fetch req fs filename r os_remove,
    derive_filename (strip_query (req_url req)) = Some filename ->
    response (run fetch req fs) = Some r ->
    os_remove filename = None ->
    del_deleted (delete_files os_remove [filename] (files (run fetch req fs))) = [filename] /\
    del_errors (delete_files os_remove [filename] (files (run fetch req fs))) = [] /\
    del_files (delete_files os_remove [filename] (files (run fetch req fs))) filename = None.
Proof.
  intros fetch req fs filename r os_remove Hd Hr Hrm.
  destruct (scrape_stored fetch req fs filename r Hd Hr) as [d0 [Hf _]].
  unfold delete_files. simpl.
  rewrite (proj2 (derive_filename_names_ok _ _ Hd)), Hf, Hrm. simpl.
  split; [reflexivity | split; [reflexivity | apply fs_remove_same]].
Qed.

Lemma index_from_end_some {A} (k : nat) (xs : list A) :
  (1 <= k <= length xs)%nat -> exists x, index_from_end k xs = Some x.
Proof.
  intros Hk. unfold index_from_end.
  replace (Nat.leb k (length xs)) with true by (symmetry; apply Nat.leb_le; lia).
  destruct (nth_error xs (length xs - k)) as [x|] eqn:E; [eauto|].
  apply nth_error_None in E. lia.
Qed.

Lemma py_split_cons (sep c : ascii) (r : string) :
  py_split sep (String c r)
  = if Ascii.eqb c sep then EmptyString :: py_split sep r
    else match py_split sep r with
         | [] => [String c EmptyString]
         | w :: ws => String c w :: ws
         end.
Proof. reflexivity. Qed.

Lemma url_slug_nonempty (base_url : string) :
  base_url <> EmptyString -> url_slug base_url <> None.
Proof.
  intros Hb. unfold url_slug.
  assert (H : (2 <= length (py_split "/" base_url))%nat \/
              exists x, py_split "/" base_url = [x] /\ x <> EmptyString).
  { destruct base_url as [|c r]; [contradiction Hb; reflexivity|].
    rewrite py_split_cons. pose proof (py_split_nonnil "/" r) as Hn.
    destruct (Ascii.eqb c "/").
    - left. destruct (py_split "/" r); [contradiction Hn; reflexivity | simpl; lia].
    - destruct (py_split "/" r) as [|w [|w' ws]]; [contradiction Hn; reflexivity| |].
      + right. exists (String c w). split; [reflexivity | discriminate].
      + left. simpl. lia. }
  destruct H as [H2 | [x [Hx Hne]]].
  - destruct (index_from_end_some 1 (py_split "/" base_url)) as [last Hl]; [lia|].
    rewrite Hl. destruct (negb (String.eqb last EmptyString)); [discriminate|].
    destruct (index_from_end_some 2 (py_split "/" base_url)) as [y Hy]; [lia|].
    rewrite Hy. discriminate.
  - rewrite Hx. unfold index_from_end. simpl.
    apply String.eqb_neq in Hne. rewrite Hne. discriminate.
Qed.

Lemma derive_filename_none (base_url : string) :
  derive_filename base_url = None <-> base_url = EmptyString.
Proof.
  split.
  - intros H. destruct (String.eqb_spec base_url EmptyString) as [He|Hne]; [exact He|].
    exfalso. unfold derive_filename in H.
    destruct (find_deal_id base_url); [discriminate|].
    destruct (url_slug base_url) eqn:Hs; [discriminate|].
    exact (url_slug_nonempty base_url Hne Hs).
  - intros ->. reflexivity.
Qed.

(** X13: the filename derivation fails (the [IndexError] of
    [split('/')[-2]]) on the empty URL and on no other. *)
Theorem derive_filename_none_iff :
  forall base_url, derive_filename base_url = None <-> base_url = EmptyString.
Proof. exact derive_filename_none. Qed.

(** X14: a scrape raises before fetching anything exactly when the URL
    stripped of its query is empty (the URL is empty or starts with [?]);
    any other failing scrape has fetched at least page 1. *)
Theorem scrape_fails_before_fetch_iff :
  forall fetch req fs,
    (response (run fetch req fs) = None /\ requests (run fetch req fs) = [])
    <-> strip_query (req_url req) = EmptyString.
Proof.
  intros fetch req fs. split.
  - intros [Hr Hq].
    destruct (derive_filename (strip_query (req_url req))) as [filename|] eqn:Hd;
      [|apply derive_filename_none; exact Hd].
    exfalso. revert Hr Hq. unfold scrape_comments. rewrite Hd.
    destruct (cache_lookup _ _ _ _); [discriminate|].
    unfold fresh_scrape.
    destruct (page_loop_requests fetch (strip_query (req_url req))
                (Z.to_nat (req_max_pages req)) 1 init_state) as [k [Hk [_ Hpos]]].
    destruct (Z.to_nat (req_max_pages req)) as [|fuel] eqn:Hfuel.
    + simpl. discriminate.
    + destruct (pages fetch _ (S fuel) 1 init_state) as [st|st]; simpl; [discriminate|].
      intros _ Hq. simpl in Hk. rewrite Hq in Hk.
      destruct k as [|k]; [lia | discriminate Hk].
  - intros He. unfold scrape_comments.
    rewrite (proj2 (derive_filename_none _) He). split; reflexivity.
Qed.

End ScrapeRuns.

(** ** Properties of the chat endpoint *)

Section ChatRuns.

Variable py_str : json -> string.
Variable py_hash : string -> Z.
Variable find_nuxt_data : string -> option string.
Variable json_loads : string -> option json.
Variable strip_html : string -> string.
Variable url_page_param : string -> option (list string).
Variable py_int : string -> option Z.

Abbreviation chat := (chat_with_data py_str).
Abbreviation inject := (inject_context py_str).
Abbreviation run := (scrape_comments py_str py_hash find_nuxt_data json_loads
                    strip_html url_page_param py_int).

Lemma chat_context_effect (generate : string -> option string) (fs : cache_fs)
  (filename : string) (data : list (string * json)) (use_summary : bool)
  (ctx : string) (fs' : cache_fs) (prompts : list string) :
  chat_context py_str generate fs filename data use_summary = Some (ctx, fs', prompts) ->
  (fs' = fs /\ prompts = []) \/
  (fs' = fs /\ exists p, prompts = [p] /\ generate p = None) \/
  (use_summary = true /\ exists p s, prompts = [p] /\ generate p = Some s /\
     fs' = fs_write fs filename (CacheJson (JObj (dict_set data "deal_summary" (JStr s))))).
Proof.
  unfold chat_context. destruct use_summary.
  - destruct (dict_has data "deal_summary" && py_truthy (dict_get_none data "deal_summary")).
    + intros H. injection H as _ <- <-. left. auto.
    + destruct (join_comments (summary_line py_str) data) as [joined|]; [|discriminate].
      cbv zeta. destruct (generate (summary_prompt (truncate_with 30000 "..." joined)))
        as [txt|] eqn:Hg.
      * intros H. injection H as _ <- <-. right. right. split; [reflexivity|]. eauto.
      * intros H. injection H as _ <- <-. right. left. eauto.
  - destruct (join_comments (full_line py_str) data); [|discriminate].
    intros H. injection H as _ <- <-. left. auto.
Qed.

Lemma chat_after_context (api_key_set : bool) generate send (fs : cache_fs)
  (req : chat_request) :
  (chat_files (chat api_key_set generate send fs req) = fs /\
   chat_prompts (chat api_key_set generate send fs req) = []) \/
  exists data ctx,
    api_key_set = true /\
    fs (cr_filename req) = Some (CacheJson (JObj data)) /\
    chat_context py_str generate fs (cr_filename req) data (cr_use_summary req)
    = Some (ctx, chat_files (chat api_key_set generate send fs req),
            chat_prompts (chat api_key_set generate send fs req)).
Proof.
  unfold chat_with_data. destruct api_key_set; simpl; [|left; split; reflexivity].
  destruct (fs (cr_filename req)) as [[j|]|] eqn:Hf; simpl;
    try (left; split; reflexivity).
  destruct j as [| | | | | |data]; simpl; try (left; split; reflexivity).
  destruct (chat_context py_str generate fs (cr_filename req) data (cr_use_summary req))
    as [[[ctx fs'] prompts]|] eqn:Hc; [|left; split; reflexivity].
  right. exists data, ctx. split; [reflexivity|]. split; [reflexivity|].
  rewrite Hc.
  destruct (map_option history_entry (cr_history req)) as [[|e h]|];
    [reflexivity | |reflexivity].
  match goal with |- context [inject_context ?f ?sp ?hs] => destruct (inject_context f sp hs) end;
    reflexivity.
Qed.

Lemma chat_effect (api_key_set : bool) generate send (fs : cache_fs) (req : chat_request) :
  (chat_files (chat api_key_set generate send fs req) = fs /\
   (chat_prompts (chat api_key_set generate send fs req) = [] \/
    exists p, chat_prompts (chat api_key_set generate send fs req) = [p] /\ generate p = None)) \/
  (cr_use_summary req = true /\
   exists data p s,
     fs (cr_filename req) = Some (CacheJson (JObj data)) /\
     chat_prompts (chat api_key_set generate send fs req) = [p] /\ generate p = Some s /\
     chat_files (chat api_key_set generate send fs req)
     = fs_write fs (cr_filename req)
         (CacheJson (JObj (dict_set data "deal_summary" (JStr s))))).
Proof.
  destruct (chat_after_context api_key_set generate send fs req)
    as [[Hf Hp] | [data [ctx [_ [Hfile Hc]]]]]; [left; auto|].
  destruct (chat_context_effect _ _ _ _ _ _ _ _ Hc)
    as [[Hf Hp] | [[Hf Hp] | [Hu [p [s [Hp [Hg Hf]]]]]]].
  - left. auto.
  - left. auto.
  - right. split; [exact Hu|]. exists data, p, s. auto.
Qed.

(** X15: a chat changes at most the requested file, and there only by
    setting [deal_summary] to the summary the model returned for the one
    prompt it was sent: every other key keeps its value. *)
Theorem chat_writes_only_summary :
  forall api_key_set generate send fs req n,
    chat_files (chat api_key_set generate send fs req) n = fs n \/
    (n = cr_filename req /\
     exists data data' p s,
       fs n = Some (CacheJson (JObj data)) /\
       chat_files (chat api_key_set generate send fs req) n = Some (CacheJson (JObj data')) /\
       chat_prompts (chat api_key_set generate send fs req) = [p] /\
       generate p = Some s /\
       dict_get data' "deal_summary" = Some (JStr s) /\
       forall k, k <> "deal_summary"%string -> dict_get data' k = dict_get data k).
Proof.
  intros api_key_set generate send fs req n.
  destruct (chat_effect api_key_set generate send fs req)
    as [[Hf _] | [_ [data [p [s [Hfile [Hp [Hg Hf]]]]]]]]; [left; rewrite Hf; reflexivity|].
  rewrite Hf. unfold fs_write.
  destruct (String.eqb_spec n (cr_filename req)) as [->|_]; [|left; reflexivity].
  right. split; [reflexivity|].
  exists data, (dict_set data "deal_summary" (JStr s)), p, s.
  split; [exact Hfile|]. split; [reflexivity|]. split; [exact Hp|]. split; [exact Hg|].
  split; [apply dict_set_get_same|].
  intros k Hk. apply dict_set_get_other. exact Hk.
Qed.

(** X16: a chat without [use_summary] never calls [generate_content] and
    writes nothing. *)
Theorem chat_plain_read_only :
  forall api_key_set generate send fs req,
    cr_use_summary req = false ->
    chat_files (chat api_key_set generate send fs req) = fs /\
    chat_prompts (chat api_key_set generate send fs req) = [].
Proof.
  intros api_key_set generate send fs req Hu.
  destruct (chat_after_context api_key_set generate send fs req)
    as [H | [data [ctx [_ [_ Hc]]]]]; [exact H|].
  revert Hc. unfold chat_context. rewrite Hu.
  destruct (join_comments (full_line py_str) data); [|discriminate].
  intros H. injection H as _ <- <-. auto.
Qed.

(** X17: a summary is generated once: after a chat that got a non-empty
    summary from the model, a later [use_summary] chat on the same file
    sends no summary prompt and writes nothing. *)
Theorem chat_summary_generated_once :
  forall api_key_set generate send fs req p s api_key_set' generate' send' req',
    chat_prompts (chat api_key_set generate send fs req) = [p] ->
    generate p = Some s ->
    s <> EmptyString ->
    cr_filename req' = cr_filename req ->
    cr_use_summary req' = true ->
    chat_prompts (chat api_key_set' generate' send'
                    (chat_files (chat api_key_set generate send fs req)) req') = [] /\
    chat_files (chat api_key_set' generate' send'
                  (chat_files (chat api_key_set generate send fs req)) req')
    = chat_files (chat api_key_set generate send fs req).
Proof.
  intros api_key_set generate send fs req p s api_key_set' generate' send' req'
    Hp Hg Hs Hfn Hu'.
  destruct (chat_effect api_key_set generate send fs req)
    as [[Hf [Hp0 | [p' [Hp' Hg']]]] | [Hu [data [p' [s' [Hfile [Hp' [Hg' Hf]]]]]]]].
  - rewrite Hp in Hp0. discriminate.
  - rewrite Hp in Hp'. injection Hp' as <-. congruence.
  - rewrite Hp in Hp'. injection Hp' as <-. rewrite Hg in Hg'. injection Hg' as <-.
    set (fs1 := chat_files (chat api_key_set generate send fs req)) in *.
    destruct (chat_after_context api_key_set' generate' send' fs1 req')
      as [[Hf2 Hp2] | [data2 [ctx2 [_ [Hfile2 Hc2]]]]]; [auto|].
    rewrite Hf, Hfn in Hfile2. unfold fs_write in Hfile2.
    rewrite String.eqb_refl in Hfile2. injection Hfile2 as <-.
    revert Hc2. unfold chat_context. rewrite Hu'.
    unfold dict_has, dict_get_none. rewrite dict_set_get_same. simpl py_truthy.
    apply String.eqb_neq in Hs. rewrite Hs. simpl.
    intros H. injection H as _ <- <-. auto.
Qed.

(** X18: a summary written by a chat survives the scrape cache: a scrape
    of the same file that would have been answered from the cache still
    is, and the record it returns carries that summary. *)
Theorem chat_summary_survives_cache_hit :
  forall api_key_set generate send fs creq p s data fetch sreq,
    chat_prompts (chat api_key_set generate send fs creq) = [p] ->
    generate p = Some s ->
    fs (cr_filename creq) = Some (CacheJson (JObj data)) ->
    derive_filename (strip_query (req_url sreq)) = Some (cr_filename creq) ->
    req_force_refresh sreq = false ->
    py_int_gt (req_max_pages sreq) (dict_get_default data "max_pages_request" (JInt 0))
    = Some false ->
    exists d,
      run fetch sreq (chat_files (chat api_key_set generate send fs creq))
      = mk_outcome (Some (JObj d)) (chat_files (chat api_key_set generate send fs creq)) [] /\
      dict_get d "deal_summary" = Some (JStr s).
Proof.
  intros api_key_set generate send fs creq p s data fetch sreq Hp Hg Hfile Hd Hforce Hgt.
  destruct (chat_effect api_key_set generate send fs creq)
    as [[Hf [Hp0 | [p' [Hp' Hg']]]] | [Hu [data' [p' [s' [Hfile' [Hp' [Hg' Hf]]]]]]]].
  - rewrite Hp in Hp0. discriminate.
  - rewrite Hp in Hp'. injection Hp' as <-. congruence.
  - rewrite Hp in Hp'. injection Hp' as <-. rewrite Hg in Hg'. injection Hg' as <-.
    rewrite Hfile in Hfile'. injection Hfile' as <-.
    set (fs1 := chat_files (chat api_key_set generate send fs creq)) in *.
    assert (Hhit : cache_lookup fs1 (cr_filename creq) (req_max_pages sreq) false
                   = Some (JObj (dict_set (dict_set data "deal_summary" (JStr s))
                                          "source" (JStr "cache")))).
    { apply cache_lookup_of.
      - rewrite Hf. unfold fs_write. rewrite String.eqb_refl. reflexivity.
      - unfold dict_get_default in *. rewrite dict_set_get_other by discriminate.
        exact Hgt. }
    eexists. split.
    + unfold scrape_comments. rewrite Hd, Hforce, Hhit. reflexivity.
    + rewrite dict_set_get_other by discriminate. apply dict_set_get_same.
Qed.

Lemma prefix_cons (a b : ascii) (n s : string) :
  String.prefix (String a n) (String b s)
  = match ascii_dec a b with left _ => String.prefix n s | right _ => false end.
Proof. reflexivity. Qed.

Lemma prefix_app (n : string) :
  forall s b, String.prefix n s = true -> String.prefix n (s ++ b) = true.
Proof.
  induction n as [|a n IH]; intros s b H.
  - destruct (s ++ b)%string; reflexivity.
  - destruct s as [|c s]; [discriminate H|].
    change ((String c s ++ b)%string) with (String c (s ++ b)).
    rewrite prefix_cons in *. destruct (ascii_dec a c); [apply IH; exact H | discriminate H].
Qed.

Lemma str_contains_unfold (n s : string) :
  str_contains n s
  = if String.prefix n s then true
    else match s with EmptyString => false | String _ r => str_contains n r end.
Proof. destruct s; reflexivity. Qed.

Lemma str_contains_app_r (n a b : string) :
  str_contains n b = true -> str_contains n (a ++ b) = true.
Proof.
  intros H. induction a as [|c a IH]; [exact H|].
  change ((String c a ++ b)%string) with (String c (a ++ b)).
  rewrite str_contains_cons.
  destruct (String.prefix n (String c (a ++ b))); [reflexivity | exact IH].
Qed.

Lemma str_contains_app_l (n a b : string) :
  str_contains n a = true -> str_contains n (a ++ b) = true.
Proof.
  induction a as [|c a IH]; intros H.
  - rewrite str_contains_unfold in H.
    destruct n as [|x n]; [|discriminate H].
    rewrite str_contains_unfold. destruct b; reflexivity.
  - change ((String c a ++ b)%string) with (String c (a ++ b)).
    rewrite str_contains_cons in *.
    destruct (String.prefix n (String c a)) eqn:E.
    + pose proof (prefix_app n (String c a) b E) as E'.
      change ((String c a ++ b)%string) with (String c (a ++ b)) in E'.
      rewrite E'. reflexivity.
    + destruct (String.prefix n (String c (a ++ b))); [reflexivity | exact (IH H)].
Qed.

Lemma user_question_has_title (t d c q : string) :
  str_contains "DEAL TITLE:" (user_question (system_prompt t d c) q) = true.
Proof.
  unfold user_question. apply str_contains_app_l.
  unfold system_prompt. do 5 apply str_contains_app_r.
  rewrite str_contains_unfold.
  rewrite (prefix_app "DEAL TITLE:" "DEAL TITLE: ") by reflexivity. reflexivity.
Qed.

(** X19: injecting the deal context into the history is idempotent: a
    history the chat already prefixed with a system prompt (for any deal)
    is sent unchanged on the next request. *)
Theorem inject_context_idempotent :
  forall t1 d1 c1 t2 d2 c2 hist hist',
    inject (system_prompt t1 d1 c1) hist = Some hist' ->
    inject (system_prompt t2 d2 c2) hist' = Some hist'.
Proof.
  intros t1 d1 c1 t2 d2 c2 hist hist' H.
  unfold inject_context in H |- *.
  destruct hist as [|[role part] rest]; [injection H as <-; reflexivity|].
  destruct (String.eqb role "user") eqn:Er; [|injection H as <-; rewrite Er; reflexivity].
  destruct (py_in_str "DEAL TITLE:" part) as [[|]|] eqn:Ein.
  - injection H as <-. rewrite Er, Ein. reflexivity.
  - injection H as <-. cbv beta iota. rewrite Er. unfold py_in_str. cbv beta iota.
    rewrite user_question_has_title. reflexivity.
  - discriminate H.
Qed.

Lemma map_option_length {A B} (f : A -> option B) :
  forall l l', map_option f l = Some l' -> length l' = length l.
Proof.
  induction l as [|x r IH]; intros l' H; simpl in H.
  - injection H as <-. reflexivity.
  - destruct (f x), (map_option f r) as [ys|] eqn:E; try discriminate.
    injection H as <-. simpl. rewrite (IH ys eq_refl). reflexivity.
Qed.

Lemma history_entry_role (msg : json) (e : string * json) :
  history_entry msg = Some e -> gemini_role e.
Proof.
  unfold history_entry. destruct msg as [| | | | | |m]; try discriminate.
  intros H. injection H as <-. unfold gemini_role. simpl fst.
  destruct (dict_get m "role") as [[| | | |r| |]|]; try (right; reflexivity).
  destruct (String.eqb r "user"); [left | right]; reflexivity.
Qed.

Lemma history_roles :
  forall l h, map_option history_entry l = Some h -> Forall gemini_role h.
Proof.
  induction l as [|x r IH]; intros h H; simpl in H.
  - injection H as <-. constructor.
  - destruct (history_entry x) as [e|] eqn:He, (map_option history_entry r) as [ys|];
      try discriminate.
    injection H as <-. constructor; [eapply history_entry_role; exact He | apply IH; reflexivity].
Qed.

Lemma inject_shape (sp : string) (h h' : list (string * json)) :
  inject sp h = Some h' -> length h' = length h /\ (Forall gemini_role h -> Forall gemini_role h').
Proof.
  unfold inject_context. destruct h as [|[role part] rest].
  - intros H. injection H as <-. auto.
  - destruct (String.eqb role "user"); [|intros H; injection H as <-; auto].
    destruct (py_in_str "DEAL TITLE:" part) as [[|]|]; intros H; try discriminate H;
      injection H as <-; [auto|].
    split; [reflexivity|]. intros Hf. inversion Hf; subst. constructor; assumption.
Qed.

(** X20: what the chat sends to Gemini: a history with one entry per
    message of the request, each with the role [user] or [model]; the
    question alone when the history is not empty, and otherwise the
    question after the system prompt built from the file's [deal_title]
    and [deal_description] and the context text of lines 142-183. *)
Theorem chat_sent_history_shape :
  forall api_key_set generate send fs req hist msg,
    chat_sent (chat api_key_set generate send fs req) = Some (hist, msg) ->
    length hist = length (cr_history req) /\
    Forall gemini_role hist /\
    (cr_history req = [] ->
       exists data ctx fs' prompts,
         fs (cr_filename req) = Some (CacheJson (JObj data)) /\
         chat_context py_str generate fs (cr_filename req) data (cr_use_summary req)
         = Some (ctx, fs', prompts) /\
         msg = user_question
                 (system_prompt
                    (py_str (dict_get_default data "deal_title" (JStr "Unknown Deal")))
                    (py_str (dict_get_default data "deal_description" (JStr "")))
                    ctx)
                 (cr_message req)) /\
    (cr_history req <> [] -> msg = cr_message req).
Proof.
  intros api_key_set generate send fs req hist msg H.
  unfold chat_with_data in H. destruct api_key_set; [|discriminate H].
  destruct (fs (cr_filename req)) as [[[| | | | | |data]|]|] eqn:Hf; try discriminate H.
  destruct (chat_context py_str generate fs (cr_filename req) data (cr_use_summary req))
    as [[[ctx fs'] prompts]|] eqn:Hc; [|discriminate H].
  destruct (map_option history_entry (cr_history req)) as [[|e h]|] eqn:Hm; [| |discriminate H].
  - injection H as <- <-.
    pose proof (map_option_length _ _ _ Hm) as Hl. simpl in Hl.
    symmetry in Hl. apply length_zero_iff_nil in Hl.
    split; [rewrite Hl; reflexivity|]. split; [constructor|].
    split; [|intros Hne; contradiction].
    intros _. exists data, ctx, fs', prompts.
    split; [first [exact Hf | reflexivity]|]. split; [first [exact Hc | reflexivity]|].
    reflexivity.
  - match type of H with context [inject_context ?f ?sp ?hs] =>
      destruct (inject_context f sp hs) as [h'|] eqn:Hi end; [|discriminate H].
    injection H as <- <-.
    destruct (inject_shape _ _ _ Hi) as [Hl Hr].
    pose proof (map_option_length _ _ _ Hm) as Hl0.
    split; [congruence|]. split; [apply Hr; eapply history_roles; exact Hm|].
    split; [|reflexivity].
    intros Hnil. rewrite Hnil in Hl0. discriminate Hl0.
Qed.

End ChatRuns.

(** ** Witnesses of the endpoint properties *)

Local Open Scope string_scope.

Lemma derive_filename_safe_witness :
  derive_filename Demo.base_url = Some "deal_1.json"%string /\
  ends_with ".json" "deal_1.json" = true /\ invalid_filename "deal_1.json" = false.
Proof.
  split; [reflexivity|].
  apply (derive_filename_safe Demo.base_url "deal_1.json"). reflexivity.
Defined.

Lemma scrape_repeat_hits_cache_witness :
  exists d,
    Demo.scrape Demo.fetch_fail (Demo.req 1 false)
      (files (Demo.scrape Demo.fetch_title (Demo.req 2 false) Demo.no_files))
    = mk_outcome (Some (JObj (dict_set d "source" (JStr "cache"))))
        (files (Demo.scrape Demo.fetch_title (Demo.req 2 false) Demo.no_files)) [].
Proof.
  destruct (scrape_repeat_hits_cache Demo.str Demo.hash Demo.find_nuxt Demo.loads
              Demo.strip_html Demo.page_param Demo.int Demo.fetch_title Demo.fetch_fail
              (Demo.req 2 false) (Demo.req 1 false) Demo.no_files
              (deal_record "Great deal" "" [] "deal_1.json" 2)
              eq_refl eq_refl eq_refl ltac:(cbn; lia)) as [d [_ H]].
  exists d. exact H.
Defined.

Lemma scrape_then_listed_witness :
  In (mk_entry "deal_1.json" (JStr "Great deal") "2026-01-01 10:00:00" 512)
     (list_files true ["deal_1.json"%string] Demo.stat_ok
        (files (Demo.scrape Demo.fetch_title (Demo.req 2 false) Demo.no_files))).
Proof.
  exact (scrape_then_listed Demo.str Demo.hash Demo.find_nuxt Demo.loads
           Demo.strip_html Demo.page_param Demo.int Demo.fetch_title (Demo.req 2 false)
           Demo.no_files "deal_1.json"
           (match deal_record "Great deal" "" [] "deal_1.json" 2 with
            | JObj f => f | _ => [] end)
           ["deal_1.json"%string] Demo.stat_ok "2026-01-01 10:00:00" 512
           eq_refl eq_refl (or_introl eq_refl) eq_refl).
Defined.

Lemma scrape_then_deleted_witness :
  del_deleted (delete_files Demo.remove_ok ["deal_1.json"%string]
                 (files (Demo.scrape Demo.fetch_title (Demo.req 2 false) Demo.no_files)))
  = ["deal_1.json"%string] /\
  del_errors (delete_files Demo.remove_ok ["deal_1.json"%string]
                (files (Demo.scrape Demo.fetch_title (Demo.req 2 false) Demo.no_files)))
  = [] /\
  del_files (delete_files Demo.remove_ok ["deal_1.json"%string]
               (files (Demo.scrape Demo.fetch_title (Demo.req 2 false) Demo.no_files)))
    "deal_1.json" = None.
Proof.
  exact (scrape_then_deleted Demo.str Demo.hash Demo.find_nuxt Demo.loads
           Demo.strip_html Demo.page_param Demo.int Demo.fetch_title (Demo.req 2 false)
           Demo.no_files "deal_1.json" (deal_record "Great deal" "" [] "deal_1.json" 2)
           Demo.remove_ok eq_refl eq_refl eq_refl).
Defined.

Lemma chat_plain_read_only_witness :
  chat_files (Demo.chat true Demo.summarize Demo.answer Demo.files3 (Demo.ask false []))
  = Demo.files3 /\
  chat_prompts (Demo.chat true Demo.summarize Demo.answer Demo.files3 (Demo.ask false []))
  = [].
Proof.
  exact (chat_plain_read_only Demo.str true Demo.summarize Demo.answer Demo.files3
           (Demo.ask false []) eq_refl).
Defined.

Lemma chat_summary_generated_once_witness :
  chat_prompts (Demo.chat true Demo.summarize Demo.answer
                  (chat_files (Demo.chat true Demo.summarize Demo.answer Demo.files3
                                 (Demo.ask true [])))
                  (Demo.ask true [Demo.first_question])) = [] /\
  chat_files (Demo.chat true Demo.summarize Demo.answer
                (chat_files (Demo.chat true Demo.summarize Demo.answer Demo.files3
                               (Demo.ask true [])))
                (Demo.ask true [Demo.first_question]))
  = chat_files (Demo.chat true Demo.summarize Demo.answer Demo.files3 (Demo.ask true [])).
Proof.
  apply (chat_summary_generated_once Demo.str true Demo.summarize Demo.answer Demo.files3
           (Demo.ask true []) (summary_prompt (truncate_with 30000 "..." ""))
           "Mostly positive" true Demo.summarize Demo.answer
           (Demo.ask true [Demo.first_question])).
  - vm_compute. reflexivity.
  - reflexivity.
  - discriminate.
  - reflexivity.
  - reflexivity.
Defined.

Lemma chat_summary_survives_cache_hit_witness :
  exists d,
    Demo.scrape Demo.fetch_fail (Demo.req 2 false)
      (chat_files (Demo.chat true Demo.summarize Demo.answer Demo.files3 (Demo.ask true [])))
    = mk_outcome (Some (JObj d))
        (chat_files (Demo.chat true Demo.summarize Demo.answer Demo.files3
                       (Demo.ask true []))) [] /\
    dict_get d "deal_summary" = Some (JStr "Mostly positive").
Proof.
  apply (chat_summary_survives_cache_hit Demo.str Demo.hash Demo.find_nuxt Demo.loads
           Demo.strip_html Demo.page_param Demo.int true Demo.summarize Demo.answer
           Demo.files3 (Demo.ask true []) (summary_prompt (truncate_with 30000 "..." ""))
           "Mostly positive" Demo.cached_fields Demo.fetch_fail (Demo.req 2 false)).
  - vm_compute. reflexivity.
  - reflexivity.
  - reflexivity.
  - reflexivity.
  - reflexivity.
  - reflexivity.
Defined.

Lemma inject_context_idempotent_witness :
  exists hist',
    inject_context Demo.str (system_prompt "T" "D" "C")
      [("user"%string, JStr "Is it cheap?")] = Some hist' /\
    inject_context Demo.str (system_prompt "T2" "D2" "C2") hist' = Some hist'.
Proof.
  eexists. split; [reflexivity|].
  apply (inject_context_idempotent Demo.str "T" "D" "C" "T2" "D2" "C2"
           [("user"%string, JStr "Is it cheap?")]).
  reflexivity.
Defined.

Lemma chat_sent_history_shape_witness :
  exists hist msg,
    chat_sent (Demo.chat true Demo.summarize Demo.answer Demo.files3
                 (Demo.ask false [Demo.first_question])) = Some (hist, msg) /\
    length hist = 1%nat /\ Forall gemini_role hist /\ msg = "Is it good?"%string.
Proof.
  eexists. eexists. split; [reflexivity|].
  destruct (chat_sent_history_shape Demo.str true Demo.summarize Demo.answer Demo.files3
              (Demo.ask false [Demo.first_question]) _ _ eq_refl) as [Hl [Hr [_ Hm]]].
  split; [exact Hl|]. split; [exact Hr|]. apply Hm. discriminate.
Defined.
